(** * Thunderdome planning poker: HTTP handlers and the session hub

    A shallow embedding of the request handlers of [src/api/auth.go]
    (the older handlers, module [Legacy]), of the newer handlers of
    [src/api/storyboard/storyboard.go] and [src/unnamed/part_000]
    (module [Api]), and of the session command processor described by the
    specification (module [SessionHub]).

    A handler is a computation over a world made of the database state and
    the ordered list of calls it makes on the response writer, the mailer
    and the database; it ends by returning or by panicking. *)

From stdpp Require Import base gmap strings list.
From Stdlib Require Import ZArith Lia.

Local Open Scope Z_scope.
Local Open Scope string_scope.

(** ** Data shared by the handlers *)

(** net/http status codes. *)
Definition StatusOK : Z := 200.
Definition StatusBadRequest : Z := 400.
Definition StatusUnauthorized : Z := 401.
Definition StatusInternalServerError : Z := 500.

(** [model.User]: the fields the handlers read. *)
Record User := mkUser { Id : string; Name : string; Email : string }.

(** The typed error built by [Errorf(code, message)]. *)
Record Error := Errorf { Code : string; Message : string }.

Definition EINVALID : string := "EINVALID".

(** [http.Cookie], with the fields the handlers set. *)
Record Cookie := mkCookie {
  CName : string; CValue : string; CPath : string; CDomain : string;
  CMaxAge : Z; CSecure : bool; CHttpOnly : bool; CSameSiteStrict : bool }.

(** A decoded JSON value as [encoding/json] stores it in an [interface{}];
    a number keeps its literal. *)
#[warnings="-register-all"]
Inductive jvalue :=
| JNull
| JBool (b : bool)
| JNumber (literal : string)
| JString (s : string)
| JArray (l : list jvalue)
| JObject (fields : list (string * jvalue)).

(** [v.(string)] on the result of indexing a [map[string]interface{}]:
    [None] is the run-time panic of a failed type assertion (missing key,
    JSON null, or a value of another type). *)
Definition assertString (v : option jvalue) : option string :=
  match v with
  | Some (JString s) => Some s
  | _ => None
  end.

(** The payload handed to a response. *)
Inductive Data := DNil | DUser (u : User).

(** Database operations, named as the methods of [a.db]. *)
Inductive DbOp :=
| OpAuthUser | OpCreateUserGuest | OpCreateUserRegistered | OpUserResetRequest
| OpGetUser | OpDeleteUser | OpUpdateUserAccount | OpUpdateUserProfile
| OpUpdateUserProfileLdap.

(** Everything a handler does that is visible outside it, in program order. *)
Inductive Call :=
| Failure (status : Z) (err : Error)
| Success (status : Z) (data : Data)
| respondWithStandardJSON (status : Z) (success : bool) (errors : list string) (data : Data)
| SetCookie (c : Cookie)
| WriteHeader (status : Z)
| ClearUserCookies
| CreateSessionCookie (sessionId : string)
| SendWelcome (name email verifyId : string)
| SendForgotPassword (name email resetId : string)
| SendDeleteConfirmation (name email : string)
| Db (op : DbOp).

Definition isDb (c : Call) : bool :=
  match c with Db _ => true | _ => false end.

Definition isMail (c : Call) : bool :=
  match c with
  | SendWelcome _ _ _ | SendForgotPassword _ _ _ | SendDeleteConfirmation _ _ => true
  | _ => false
  end.

(** The calls that reach the HTTP response. *)
Definition isResponse (c : Call) : bool := negb (isDb c) && negb (isMail c).

(** [*http.Request]: the result of [ioutil.ReadAll(r.Body)], [mux.Vars],
    the context values set by the middleware, and the secure cookie. *)
Record Request := mkRequest {
  Body : string + string;
  Vars : gmap string string;
  CtxUserID : option string;
  CtxUserType : option string;
  SecureCookie : option string }.

(** ** The handler monad *)

Inductive Exit := Returned | Panicked.

Section HandlerMonad.
Context {S : Type}.

(** The state of the database when the handler stops and the calls it made. *)
Record World := mkWorld { db : S; trace : list Call }.

(** A computation reads and updates the database and only ever appends to
    the calls made so far; it yields a value or stops the handler. *)
Definition M (A : Type) : Type := S → (A + Exit) * World.

Definition ret {A} (a : A) : M A := λ d, (inl a, {| db := d; trace := [] |}).

Definition bind {A B} (m : M A) (k : A → M B) : M B :=
  λ d, match m d with
       | (inl a, w) =>
           let '(b, w') := k a (db w) in
           (b, {| db := db w'; trace := trace w ++ trace w' |})
       | (inr e, w) => (inr e, w)
       end.

(** Go's [return] in the middle of a handler. *)
Definition return_ {A} : M A := λ d, (inr Returned, {| db := d; trace := [] |}).

(** A failed type assertion or a nil dereference. *)
Definition panic {A} : M A := λ d, (inr Panicked, {| db := d; trace := [] |}).

Definition calls (cs : list Call) : M unit :=
  λ d, (inl tt, {| db := d; trace := cs |}).

Definition call (c : Call) : M unit := calls [c].

(** A database method: the call is recorded and the state threaded. *)
Definition query {A} (op : DbOp) (f : S → A * S) : M A :=
  λ d, let '(a, d') := f d in (inl a, {| db := d'; trace := [Db op] |}).

Definition unwrap {A} (o : option A) : M A :=
  match o with Some a => ret a | None => panic end.

Definition when (b : bool) (m : M unit) : M unit :=
  if b then m else ret tt.

(** Serving one request: reaching the end of the handler is a return. *)
Definition serve (h : M unit) (d : S) : Exit * World :=
  match h d with
  | (inl _, w) => (Returned, w)
  | (inr e, w) => (e, w)
  end.
End HandlerMonad.

Arguments World : clear implicits.
Arguments M : clear implicits.

(** The monad is used through stdpp's [x ← m; k] and [m;; k]. *)
#[global] Instance M_ret {S} : MRet (M S) := λ A, @ret S A.
#[global] Instance M_bind {S} : MBind (M S) := λ A B k m, @bind S A B m k.

(** What a client sees of a served request: the response calls. *)
Definition response {S} (r : Exit * World S) : list Call :=
  filter (λ c, isResponse c = true) (trace r.2).

Definition mails {S} (r : Exit * World S) : list Call :=
  filter (λ c, isMail c = true) (trace r.2).

(** A served request with one more call made before it. *)
Definition after {S} (c : Call) (r : Exit * World S) : Exit * World S :=
  (r.1, {| db := db r.2; trace := c :: trace r.2 |}).

(** ** The older handlers: src/api/auth.go *)

Module Legacy.

(** [a.config]. *)
Record Config := mkConfig {
  SecureCookieName : string; FrontendCookieName : string;
  PathPrefix : string; AppDomain : string; SecureCookieFlag : bool }.

Record UserAccount := mkUserAccount {
  AName : string; AEmail : string; Password1 : string; Password2 : string }.

(** The methods of [a.db] the handlers call. A Go [error] is its message,
    [None] for nil; a [*model.User] may be nil. *)
Record Database (S : Type) := mkDatabase {
  AuthUser : string → string → S → (option User * option string) * S;
  CreateUserRegistered :
    string → string → string → string → S → (option User * string * option string) * S;
  UserResetRequest : string → S → (string * string * option string) * S }.
Arguments AuthUser {S}.
Arguments CreateUserRegistered {S}.
Arguments UserResetRequest {S}.

(** The receiver [a *api] with what the handlers reach through it. The
    helper [getJSONRequestBody] is not among the sources: it is taken as
    it is used, a function of the request that may write to the response
    and yields a [map[string]interface{}]. [cookieEncode], [cookieDecode],
    [viperGetBool], [ToLower] and [validatorStruct] stand for
    securecookie, viper, strings.ToLower and validator.Struct. *)
Record api (S : Type) := mkApi {
  config : Config;
  database : Database S;
  cookieEncode : string → string → string + string;
  cookieDecode : string → string → string + string;
  viperGetBool : string → bool;
  ToLower : string → string;
  getJSONRequestBody : Request → list Call * gmap string jvalue;
  validatorStruct : UserAccount → option string }.
Arguments config {S}.
Arguments database {S}.
Arguments cookieEncode {S}.
Arguments cookieDecode {S}.
Arguments viperGetBool {S}.
Arguments ToLower {S}.
Arguments getJSONRequestBody {S}.
Arguments validatorStruct {S}.

(** The receiver with [config.allow_registration] set to [b] in viper. *)
Definition allowRegistration {S} (b : bool) (a : api S) : api S :=
{| config := config a; database := database a;
   cookieEncode := cookieEncode a; cookieDecode := cookieDecode a;
   viperGetBool key :=
     if String.eqb key "config.allow_registration" then b else viperGetBool a key;
   ToLower := ToLower a;
   getJSONRequestBody := getJSONRequestBody a;
   validatorStruct := validatorStruct a |}.

Section Handlers.
Context {S : Type} (a : api S).

Definition readJSONRequestBody (r : Request) : M S (gmap string jvalue) :=
    calls (getJSONRequestBody a r).1;; mret (getJSONRequestBody a r).2.

Definition ValidateUserAccount (name email pwd1 pwd2 : string)
    : string * string * string * option string :=
    let acc := {| AName := name; AEmail := email;
                  Password1 := pwd1; Password2 := pwd2 |} in
    let err := validatorStruct a acc in
    (name, email, pwd1, err).

Definition createUserCookie (isRegistered : bool) (UserID : string) : M S unit :=
    let cookiedays := if isRegistered then 30 else 365 in
    match cookieEncode a (SecureCookieName (config a)) UserID with
    | inr _ => call (WriteHeader StatusInternalServerError)
    | inl encoded =>
        call (SetCookie {|
          CName := SecureCookieName (config a);
          CValue := encoded;
          CPath := PathPrefix (config a) +:+ "/";
          CHttpOnly := true;
          CDomain := AppDomain (config a);
          CMaxAge := 86400 * cookiedays;
          CSecure := SecureCookieFlag (config a);
          CSameSiteStrict := true |})
    end.

Definition clearUserCookies : M S unit :=
    let feCookie := {|
      CName := FrontendCookieName (config a);
      CValue := "";
      CPath := PathPrefix (config a) +:+ "/";
      CMaxAge := -1;
      CDomain := ""; CSecure := false; CHttpOnly := false;
      CSameSiteStrict := false |} in
    let beCookie := {|
      CName := SecureCookieName (config a);
      CValue := "";
      CPath := PathPrefix (config a) +:+ "/";
      CDomain := AppDomain (config a);
      CSecure := SecureCookieFlag (config a);
      CSameSiteStrict := true;
      CMaxAge := -1;
      CHttpOnly := true |} in
    call (SetCookie feCookie);; call (SetCookie beCookie).

Definition validateUserCookie (r : Request) : M S (string * option string) :=
    match SecureCookie r with
    | Some cookie =>
        match cookieDecode a (SecureCookieName (config a)) cookie with
        | inl value => mret (value, None)
        | inr _ => clearUserCookies;; mret ("", Some "invalid user cookies")
        end
    | None => clearUserCookies;; mret ("", Some "invalid user cookies")
    end.

Definition createCookie (UserID : string) : option Cookie :=
    match cookieEncode a (SecureCookieName (config a)) UserID with
    | inl encoded =>
        Some {|
          CName := SecureCookieName (config a);
          CValue := encoded;
          CPath := PathPrefix (config a) +:+ "/";
          CHttpOnly := true;
          CDomain := AppDomain (config a);
          CMaxAge := 86400 * 30;
          CSecure := SecureCookieFlag (config a);
          CSameSiteStrict := true |}
    | inr _ => None
    end.

Definition authUserDatabase (UserEmail UserPassword : string)
    : M S (option User * option string) :=
    query OpAuthUser (AuthUser (database a) UserEmail UserPassword).

Definition handleLogin (r : Request) : M S unit :=
    keyVal ← readJSONRequestBody r;
    email ← unwrap (assertString (keyVal !! "warriorEmail"));
    let UserEmail := ToLower a email in
    UserPassword ← unwrap (assertString (keyVal !! "warriorPassword"));
    '(authedUser, err) ← authUserDatabase UserEmail UserPassword;
    match err with
    | Some _ =>
        call (respondWithStandardJSON StatusUnauthorized false [] DNil);; return_
    | None =>
        u ← unwrap authedUser;
        match createCookie (Id u) with
        | Some cookie => call (SetCookie cookie)
        | None =>
            call (respondWithStandardJSON StatusInternalServerError false [] DNil);;
            return_
        end;;
        call (respondWithStandardJSON StatusOK true [] (DUser u))
    end.

Definition handleUserRegistration (r : Request) : M S unit :=
    let AllowRegistration := viperGetBool a "config.allow_registration" in
    when (negb AllowRegistration)
      (call (respondWithStandardJSON StatusBadRequest false [] DNil));;
    keyVal ← readJSONRequestBody r;
    '(ActiveUserID, _) ← validateUserCookie r;
    name ← unwrap (assertString (keyVal !! "warriorName"));
    email ← unwrap (assertString (keyVal !! "warriorEmail"));
    pwd1 ← unwrap (assertString (keyVal !! "warriorPassword1"));
    pwd2 ← unwrap (assertString (keyVal !! "warriorPassword2"));
    let '(UserName, UserEmail, UserPassword, accountErr) :=
      ValidateUserAccount name (ToLower a email) pwd1 pwd2 in
    match accountErr with
    | Some e =>
        call (respondWithStandardJSON StatusBadRequest false [e] DNil);; return_
    | None =>
        '(newUser, VerifyID, err) ←
          query OpCreateUserRegistered
            (CreateUserRegistered (database a) UserName UserEmail UserPassword ActiveUserID);
        match err with
        | Some e =>
            call (respondWithStandardJSON StatusInternalServerError false [e] DNil);;
            return_
        | None =>
            u ← unwrap newUser;
            createUserCookie true (Id u);;
            call (SendWelcome UserName UserEmail VerifyID);;
            call (respondWithStandardJSON StatusOK true [] (DUser u))
        end
    end.

Definition handleForgotPassword (r : Request) : M S unit :=
    keyVal ← readJSONRequestBody r;
    email ← unwrap (assertString (keyVal !! "warriorEmail"));
    let UserEmail := ToLower a email in
    '(ResetID, UserName, resetErr) ←
      query OpUserResetRequest (UserResetRequest (database a) UserEmail);
    match resetErr with
    | None => call (SendForgotPassword UserName UserEmail ResetID);; return_
    | Some _ => call (respondWithStandardJSON StatusOK true [] DNil)
    end.
End Handlers.
End Legacy.

(** ** The newer handlers: src/api/storyboard/storyboard.go (second part)
       and src/unnamed/part_000 *)

(** [json.Unmarshal(body, &u)] into a zero value of [T]: the decoded value
    or the error message. *)
Class JSONUnmarshal (T : Type) := Unmarshal : string → T + string.

(** A body is rejected when it cannot be read or does not decode into [T]. *)
Definition undecodable (T : Type) `{JSONUnmarshal T} (r : Request) (msg : string) : Prop :=
  Body r = inr msg ∨ ∃ body, Body r = inl body ∧ Unmarshal (T := T) body = inr msg.

Module Api.

Record userLoginRequestBody := mkLogin { lEmail : string; lPassword : string }.

Record userRegisterRequestBody := mkRegister {
  rName : string; rEmail : string; rPassword1 : string; rPassword2 : string }.

Record forgotPasswordRequestBody := mkForgot { fEmail : string }.

Record userprofileUpdateRequestBody := mkProfile {
  pName : string; pAvatar : string; pNotificationsEnabled : bool;
  pCountry : string; pLocale : string; pCompany : string;
  pJobTitle : string; pEmail : string }.

(** The methods of [a.db] the handlers call; a nil [error] is [None]. *)
Record Database (S : Type) := mkDatabase {
  AuthUser : string → string → S → (option User * string * option Error) * S;
  CreateUserRegistered :
    string → string → string → string → S →
    (option User * string * string * option Error) * S;
  UserResetRequest : string → S → (string * string * option Error) * S;
  GetUser : string → S → (option User * option Error) * S;
  DeleteUser : string → S → option Error * S;
  UpdateUserAccount :
    string → string → string → string → bool → string → string → string → string →
    S → option Error * S;
  UpdateUserProfile :
    string → string → string → bool → string → string → string → string →
    S → option Error * S;
  UpdateUserProfileLdap :
    string → string → bool → string → string → string → string →
    S → option Error * S }.
Arguments AuthUser {S}.
Arguments CreateUserRegistered {S}.
Arguments UserResetRequest {S}.
Arguments GetUser {S}.
Arguments DeleteUser {S}.
Arguments UpdateUserAccount {S}.
Arguments UpdateUserProfile {S}.
Arguments UpdateUserProfileLdap {S}.

(** The receiver [a *api]. Of the helpers the handlers call, [Failure],
    [Success] and [clearUserCookies] are recorded as calls;
    [createSessionCookie] is recorded and its error taken from
    [sessionCookieErr]; [validateUserCookie] may write to the response and
    yields the user id and an error; [validateUserAccount] and
    [validateUserAccountWithPasswords] yield their error; [adminUserType]
    is the constant the session user type is compared with. None of them is
    among the sources. [viperGetBool] and [ToLower] stand for viper and
    strings.ToLower. *)
Record api (S : Type) := mkApi {
  database : Database S;
  LdapEnabled : bool;
  adminUserType : string;
  viperGetBool : string → bool;
  ToLower : string → string;
  sessionCookieErr : string → option Error;
  validateUserCookie : Request → list Call * (string * option Error);
  validateUserAccount : string → string → option Error;
  validateUserAccountWithPasswords :
    string → string → string → string → string * string * string * option Error }.
Arguments database {S}.
Arguments LdapEnabled {S}.
Arguments adminUserType {S}.
Arguments viperGetBool {S}.
Arguments ToLower {S}.
Arguments sessionCookieErr {S}.
Arguments validateUserCookie {S}.
Arguments validateUserAccount {S}.
Arguments validateUserAccountWithPasswords {S}.

(** The receiver with [config.allow_registration] set to [b] in viper. *)
Definition allowRegistration {S} (b : bool) (a : api S) : api S :=
  {| database := database a; LdapEnabled := LdapEnabled a;
     adminUserType := adminUserType a;
     viperGetBool key :=
       if String.eqb key "config.allow_registration" then b else viperGetBool a key;
     ToLower := ToLower a;
     sessionCookieErr := sessionCookieErr a;
     validateUserCookie := validateUserCookie a;
     validateUserAccount := validateUserAccount a;
     validateUserAccountWithPasswords := validateUserAccountWithPasswords a |}.

Definition userData (u : option User) : Data :=
  match u with Some u => DUser u | None => DNil end.

Section Handlers.
Context {S : Type} (a : api S).
Context {decLogin : JSONUnmarshal userLoginRequestBody}.
Context {decRegister : JSONUnmarshal userRegisterRequestBody}.
Context {decForgot : JSONUnmarshal forgotPasswordRequestBody}.
Context {decProfile : JSONUnmarshal userprofileUpdateRequestBody}.

Definition createSessionCookie (SessionID : string) : M S (option Error) :=
  call (CreateSessionCookie SessionID);; mret (sessionCookieErr a SessionID).

Definition clearUserCookies : M S unit := call ClearUserCookies.

Definition handleLogin (r : Request) : M S unit :=
  body ← match Body r with
         | inr bodyErr =>
             call (Failure StatusBadRequest (Errorf EINVALID bodyErr));; return_
         | inl body => mret body
         end;
  u ← match Unmarshal body with
      | inr jsonErr =>
          call (Failure StatusBadRequest (Errorf EINVALID jsonErr));; return_
      | inl u => mret u
      end;
  '(authedUser, sessionId, err) ←
    query OpAuthUser (AuthUser (database a) (ToLower a (lEmail u)) (lPassword u));
  match err with
  | Some _ =>
      call (Failure StatusUnauthorized (Errorf EINVALID "INVALID_LOGIN"));; return_
  | None =>
      cookieErr ← createSessionCookie sessionId;
      match cookieErr with
      | Some _ =>
          call (Failure StatusInternalServerError (Errorf EINVALID "INVALID_COOKIE"));;
          return_
      | None => call (Success StatusOK (userData authedUser))
      end
  end.

Definition handleUserRegistration (r : Request) : M S unit :=
  let AllowRegistration := viperGetBool a "config.allow_registration" in
  when (negb AllowRegistration)
    (call (Failure StatusBadRequest (Errorf EINVALID "USER_REGISTRATION_DISABLED")));;
  body ← match Body r with
         | inr bodyErr =>
             call (Failure StatusBadRequest (Errorf EINVALID bodyErr));; return_
         | inl body => mret body
         end;
  u ← match Unmarshal body with
      | inr jsonErr =>
          call (Failure StatusBadRequest (Errorf EINVALID jsonErr));; return_
      | inl u => mret u
      end;
  calls (validateUserCookie a r).1;;
  let ActiveUserID := (validateUserCookie a r).2.1 in
  let '(UserName, UserEmail, UserPassword, accountErr) :=
    validateUserAccountWithPasswords a
      (rName u) (ToLower a (rEmail u)) (rPassword1 u) (rPassword2 u) in
  match accountErr with
  | Some e => call (Failure StatusBadRequest e);; return_
  | None =>
      '(newUser, VerifyID, SessionID, err) ←
        query OpCreateUserRegistered
          (CreateUserRegistered (database a) UserName UserEmail UserPassword ActiveUserID);
      match err with
      | Some e => call (Failure StatusInternalServerError e);; return_
      | None =>
          call (SendWelcome UserName UserEmail VerifyID);;
          when (negb (String.eqb ActiveUserID "")) clearUserCookies;;
          cookieErr ← createSessionCookie SessionID;
          match cookieErr with
          | Some _ =>
              call (Failure StatusInternalServerError (Errorf EINVALID "INVALID_COOKIE"));;
              return_
          | None => call (Success StatusOK (userData newUser))
          end
      end
  end.

Definition handleForgotPassword (r : Request) : M S unit :=
  body ← match Body r with
         | inr bodyErr =>
             call (Failure StatusBadRequest (Errorf EINVALID bodyErr));; return_
         | inl body => mret body
         end;
  u ← match Unmarshal body with
      | inr jsonErr =>
          call (Failure StatusBadRequest (Errorf EINVALID jsonErr));; return_
      | inl u => mret u
      end;
  let UserEmail := ToLower a (fEmail u) in
  '(ResetID, UserName, resetErr) ←
    query OpUserResetRequest (UserResetRequest (database a) UserEmail);
  match resetErr with
  | None => call (SendForgotPassword UserName UserEmail ResetID)
  | Some _ => mret tt
  end;;
  call (Success StatusOK DNil).

(** [vars["userId"]]: a missing key reads as the empty string. *)
Definition pathVar (r : Request) (k : string) : string := default "" (Vars r !! k).

Definition handleUserProfileUpdate (r : Request) : M S unit :=
  SessionUserType ← unwrap (CtxUserType r);
  body ← match Body r with
         | inr bodyErr =>
             call (Failure StatusBadRequest (Errorf EINVALID bodyErr));; return_
         | inl body => mret body
         end;
  profile ← match Unmarshal body with
            | inr jsonErr =>
                call (Failure StatusBadRequest (Errorf EINVALID jsonErr));; return_
            | inl profile => mret profile
            end;
  let UserID := pathVar r "userId" in
  (if String.eqb SessionUserType (adminUserType a) then
     match validateUserAccount a (pName profile) (pEmail profile) with
     | Some vErr => call (Failure StatusBadRequest vErr);; return_
     | None => mret tt
     end;;
     updateErr ←
       query OpUpdateUserAccount
         (UpdateUserAccount (database a) UserID (pName profile) (pEmail profile)
            (pAvatar profile) (pNotificationsEnabled profile) (pCountry profile)
            (pLocale profile) (pCompany profile) (pJobTitle profile));
     match updateErr with
     | Some e => call (Failure StatusInternalServerError e);; return_
     | None => mret tt
     end
   else
     updateErr ←
       (if negb (LdapEnabled a) then
          (if String.eqb (pName profile) "" then
             call (Failure StatusBadRequest (Errorf EINVALID "INVALID_USERNAME"));;
             return_
           else mret tt);;
          query OpUpdateUserProfile
            (UpdateUserProfile (database a) UserID (pName profile) (pAvatar profile)
               (pNotificationsEnabled profile) (pCountry profile) (pLocale profile)
               (pCompany profile) (pJobTitle profile))
        else
          query OpUpdateUserProfileLdap
            (UpdateUserProfileLdap (database a) UserID (pAvatar profile)
               (pNotificationsEnabled profile) (pCountry profile) (pLocale profile)
               (pCompany profile) (pJobTitle profile)));
     match updateErr with
     | Some e => call (Failure StatusInternalServerError e);; return_
     | None => mret tt
     end);;
  '(user, UserErr) ← query OpGetUser (GetUser (database a) UserID);
  match UserErr with
  | Some e => call (Failure StatusInternalServerError e);; return_
  | None => call (Success StatusOK (userData user))
  end.

Definition handleUserDelete (r : Request) : M S unit :=
  let UserID := pathVar r "userId" in
  UserCookieID ← unwrap (CtxUserID r);
  '(User, UserErr) ← query OpGetUser (GetUser (database a) UserID);
  match UserErr with
  | Some e => call (Failure StatusInternalServerError e);; return_
  | None => mret tt
  end;;
  updateErr ← query OpDeleteUser (DeleteUser (database a) UserID);
  match updateErr with
  | Some e => call (Failure StatusInternalServerError e);; return_
  | None => mret tt
  end;;
  u ← unwrap User;
  call (SendDeleteConfirmation (Name u) (Email u));;
  when (String.eqb UserID UserCookieID) clearUserCookies;;
  call (Success StatusOK DNil).

End Handlers.
End Api.

(** ** The session hub

    The sources hold no code of the session command processor (only
    [go h.run()] in [storyboard.New] starts it), so this module follows
    sections 3, 4.2, 4.3 and 7 of the specification. *)

Module SessionHub.

(** Modelled from the spec: the role and presence of a Participant, the
    status of a WorkItem and the kind of a Session, as section 3 lists
    them. *)
Inductive Role := Facilitator | Voter | Spectator.
Inductive Presence := Connected | Disconnected.
Inductive Status := Pending | Active | Voted | Finalized.
Inductive Kind := Battle | Storyboard.

(** Modelled from the spec: the error taxonomy of section 7. *)
Inductive ErrorCode :=
| EINVALID | EUNAUTHORIZED | EINVALID_STATE | ENOT_FOUND | ESTORAGE.

#[global] Instance Role_eq_dec : EqDecision Role.
Proof. solve_decision. Defined.
#[global] Instance Presence_eq_dec : EqDecision Presence.
Proof. solve_decision. Defined.
#[global] Instance Status_eq_dec : EqDecision Status.
Proof. solve_decision. Defined.

(** Modelled from the spec: the Participant of section 3 (identity,
    display name, role, presence, optional current vote). *)
Record Participant := mkParticipant {
  identity : string; displayName : string; role : Role;
  presence : Presence; currentVote : option string }.

(** Modelled from the spec: the WorkItem of section 3; [votes] is its vote
    history, the accepted (identity, value) pairs in submission order. *)
Record WorkItem := mkWorkItem {
  id : string; title : string; description : string; ordinal : nat;
  status : Status; points : option string; votes : list (string * string) }.

(** Modelled from the spec: the Session of section 3. *)
Record Session := mkSession {
  sessionID : string; kind : Kind;
  workItems : list WorkItem;
  activeIndex : option nat;
  participants : gmap string Participant;
  reveal : bool;
  autoFinishVoting : bool;
  leader : string }.

(** Modelled from the spec: the Commands of section 4.2. *)
Inductive Command :=
| Join (identity displayName : string)
| Leave (identity : string)
| Vote (identity value : string)
| Reveal (identity : string)
| ActivateWorkItem (identity workItemID : string)
| FinalizePoints (identity points : string)
| ChangeLeader (identity newLeaderIdentity : string).

(** Modelled from the spec: the Events of section 3; [VoteCast] withholds
    the value, [Snapshot] is the private full-state message of Join. *)
Inductive Event :=
| ParticipantJoined (identity displayName : string)
| ParticipantLeft (identity : string)
| VoteCast (identity : string)
| VotesRevealed (values : list (string * string))
| WorkItemActivated (workItemID : string)
| PlanFinalized (workItemID points : string)
| LeaderChanged (identity : string)
| Snapshot (s : Session).

(** Modelled from the spec: the fire-and-forget requests of section 6 to
    the persistence collaborator, and the idle timer of Leave. *)
Inductive Effect :=
| RecordVote (sessionID workItemID identity value : string)
| FinalizeWorkItem (sessionID workItemID points : string)
| SaveRosterChange (sessionID identity : string)
| StartIdleTimer.

(** Modelled from the spec: a command is accepted, with the events to
    broadcast, the events for the submitter alone and the requests issued,
    or rejected with a typed error. *)
Inductive Result :=
| Accepted (broadcast private : list Event) (effects : list Effect)
| Rejected (e : ErrorCode).

Definition setWorkItems (s : Session) (ws : list WorkItem) : Session :=
  {| sessionID := sessionID s; kind := kind s; workItems := ws;
     activeIndex := activeIndex s; participants := participants s;
     reveal := reveal s; autoFinishVoting := autoFinishVoting s;
     leader := leader s |}.

Definition setParticipants (s : Session) (ps : gmap string Participant) : Session :=
  {| sessionID := sessionID s; kind := kind s; workItems := workItems s;
     activeIndex := activeIndex s; participants := ps;
     reveal := reveal s; autoFinishVoting := autoFinishVoting s;
     leader := leader s |}.

Definition setReveal (s : Session) (b : bool) : Session :=
  {| sessionID := sessionID s; kind := kind s; workItems := workItems s;
     activeIndex := activeIndex s; participants := participants s;
     reveal := b; autoFinishVoting := autoFinishVoting s;
     leader := leader s |}.

Definition setActiveIndex (s : Session) (i : option nat) : Session :=
  {| sessionID := sessionID s; kind := kind s; workItems := workItems s;
     activeIndex := i; participants := participants s;
     reveal := reveal s; autoFinishVoting := autoFinishVoting s;
     leader := leader s |}.

Definition setLeader (s : Session) (l : string) : Session :=
  {| sessionID := sessionID s; kind := kind s; workItems := workItems s;
     activeIndex := activeIndex s; participants := participants s;
     reveal := reveal s; autoFinishVoting := autoFinishVoting s;
     leader := l |}.

Definition setStatus (w : WorkItem) (st : Status) : WorkItem :=
  {| id := id w; title := title w; description := description w;
     ordinal := ordinal w; status := st; points := points w; votes := votes w |}.

Definition setVotes (w : WorkItem) (vs : list (string * string)) : WorkItem :=
  {| id := id w; title := title w; description := description w;
     ordinal := ordinal w; status := status w; points := points w; votes := vs |}.

Definition setPoints (w : WorkItem) (p : option string) : WorkItem :=
  {| id := id w; title := title w; description := description w;
     ordinal := ordinal w; status := status w; points := p; votes := votes w |}.

Definition setRole (p : Participant) (r : Role) : Participant :=
  {| identity := identity p; displayName := displayName p; role := r;
     presence := presence p; currentVote := currentVote p |}.

Definition setPresence (p : Participant) (c : Presence) : Participant :=
  {| identity := identity p; displayName := displayName p; role := role p;
     presence := c; currentVote := currentVote p |}.

Definition setCurrentVote (p : Participant) (v : option string) : Participant :=
  {| identity := identity p; displayName := displayName p; role := role p;
     presence := presence p; currentVote := v |}.

(** Modelled from the spec: the active WorkItem is the one the session's
    active index designates, while its status is active. *)
Definition activeItem (s : Session) : option (nat * WorkItem) :=
  match activeIndex s with
  | Some i =>
      match workItems s !! i with
      | Some w => if decide (status w = Active) then Some (i, w) else None
      | None => None
      end
  | None => None
  end.

(** Modelled from the spec: a command "is rejected if that identity lacks
    the required role"; an identity that is no Participant has no role. *)
Definition isFacilitator (s : Session) (who : string) : bool :=
  match participants s !! who with
  | Some p => bool_decide (role p = Facilitator)
  | None => false
  end.

Definition mayVote (s : Session) (who : string) : bool :=
  match participants s !! who with
  | Some p => negb (bool_decide (role p = Spectator))
  | None => false
  end.

Definition isConnected (s : Session) (who : string) : bool :=
  match participants s !! who with
  | Some p => bool_decide (presence p = Connected)
  | None => false
  end.

(** Modelled from the spec: "all connected non-spectator Participants have
    voted", the condition of the automatic reveal. *)
Definition hasVoted (p : Participant) : bool :=
  bool_decide (presence p = Disconnected) || bool_decide (role p = Spectator)
  || bool_decide (is_Some (currentVote p)).

Definition allVoted (s : Session) : bool :=
  forallb (λ kp, hasVoted kp.2) (map_to_list (participants s)).

Definition noneConnected (s : Session) : bool :=
  forallb (λ kp : string * Participant, bool_decide (presence kp.2 = Disconnected))
          (map_to_list (participants s)).

(** Modelled from the spec: Join. A present identity is marked connected
    and keeps its vote and role; a new one is inserted with the default
    role. ParticipantJoined is broadcast and the joiner alone receives the
    snapshot. *)
Definition join (s : Session) (who name : string) : Session * Result :=
  let p := match participants s !! who with
           | Some p => setPresence p Connected
           | None => {| identity := who; displayName := name; role := Voter;
                        presence := Connected; currentVote := None |}
           end in
  let s' := setParticipants s (<[who := p]> (participants s)) in
  (s', Accepted [ParticipantJoined who name] [Snapshot s']
                [SaveRosterChange (sessionID s) who]).

(** Modelled from the spec: Leave marks the Participant disconnected and
    keeps it in the roster; with nobody connected the idle timer starts. *)
Definition leave (s : Session) (who : string) : Session * Result :=
  match participants s !! who with
  | None => (s, Rejected ENOT_FOUND)
  | Some p =>
      let s' := setParticipants s (<[who := setPresence p Disconnected]> (participants s)) in
      (s', Accepted [ParticipantLeft who] []
             (SaveRosterChange (sessionID s) who ::
              if noneConnected s' then [StartIdleTimer] else []))
  end.

(** Modelled from the spec: Vote. "rejected with EINVALID_STATE if the
    active WorkItem is already revealed or there is no active WorkItem;
    rejected with EUNAUTHORIZED if the identity's role is spectator.
    Otherwise records the vote, emits VoteCast"; with autoFinishVoting and
    every connected non-spectator having voted, the reveal follows. *)
Definition vote (s : Session) (who value : string) : Session * Result :=
  match activeItem s with
  | None => (s, Rejected EINVALID_STATE)
  | Some (i, w) =>
      if reveal s then (s, Rejected EINVALID_STATE)
      else if negb (mayVote s who) then (s, Rejected EUNAUTHORIZED)
      else
        let w' := setVotes w (votes w ++ [(who, value)]) in
        let ps := alter (λ p, setCurrentVote p (Some value)) who (participants s) in
        let s' := setParticipants (setWorkItems s (<[i := w']> (workItems s))) ps in
        let saved := [RecordVote (sessionID s) (id w) who value] in
        if autoFinishVoting s' && allVoted s'
        then (setReveal s' true,
              Accepted [VoteCast who; VotesRevealed (votes w')] [] saved)
        else (s', Accepted [VoteCast who] [] saved)
  end.

(** Modelled from the spec: the values a Reveal carries, "all recorded
    values": the votes recorded for the active WorkItem, none when no
    WorkItem is active. *)
Definition recordedVotes (s : Session) : list (string * string) :=
  match activeItem s with
  | Some (_, w) => votes w
  | None => []
  end.

(** Modelled from the spec: Reveal. "requires facilitator role; rejected
    with EUNAUTHORIZED otherwise; sets reveal flag true, emits VotesRevealed
    carrying all recorded values"; a Reveal that finds the reveal flag set
    is the second Reveal of section 8 and is rejected with EINVALID_STATE.
    The specification gives Reveal no other guard. *)
Definition revealVotes (s : Session) (who : string) : Session * Result :=
  if negb (isFacilitator s who) then (s, Rejected EUNAUTHORIZED)
  else if reveal s then (s, Rejected EINVALID_STATE)
  else (setReveal s true, Accepted [VotesRevealed (recordedVotes s)] [] []).

(** Modelled from the spec: "exactly zero or one WorkItem is active at a
    time", so an item that was active goes back to pending when another
    one is activated. *)
Definition deactivate (w : WorkItem) : WorkItem :=
  if decide (status w = Active) then setStatus w Pending else w.

Definition hasId (wid : string) (w : WorkItem) : Prop := id w = wid.

#[global] Instance hasId_dec wid w : Decision (hasId wid w).
Proof. unfold hasId. apply _. Defined.

(** Modelled from the spec: ActivateWorkItem. "requires facilitator; clears
    votes and reveal flag for the new active item; rejected with ENOT_FOUND
    if the id is unknown". The first item with the id becomes the active
    one; the votes of the Participants, defined for the active item only,
    are dropped. *)
Definition activateWorkItem (s : Session) (who wid : string) : Session * Result :=
  if negb (isFacilitator s who) then (s, Rejected EUNAUTHORIZED)
  else match list_find (hasId wid) (workItems s) with
       | None => (s, Rejected ENOT_FOUND)
       | Some (j, w) =>
           let ws := <[j := setVotes (setStatus w Active) []]>
                       (deactivate <$> workItems s) in
           let ps := (λ p, setCurrentVote p None) <$> participants s in
           (setReveal (setActiveIndex (setParticipants (setWorkItems s ws) ps) (Some j))
                      false,
            Accepted [WorkItemActivated wid] [] [])
       end.

(** Modelled from the spec: FinalizePoints. "requires facilitator and
    reveal flag true; sets the WorkItem's point value and status to
    finalized; schedules an asynchronous durable write; emits PlanFinalized
    immediately". *)
Definition finalizePoints (s : Session) (who pts : string) : Session * Result :=
  if negb (isFacilitator s who) then (s, Rejected EUNAUTHORIZED)
  else if negb (reveal s) then (s, Rejected EINVALID_STATE)
  else match activeItem s with
       | None => (s, Rejected EINVALID_STATE)
       | Some (i, w) =>
           let w' := setStatus (setPoints w (Some pts)) Finalized in
           (setWorkItems s (<[i := w']> (workItems s)),
            Accepted [PlanFinalized (id w) pts] []
                     [FinalizeWorkItem (sessionID s) (id w) pts])
       end.

(** Modelled from the spec: ChangeLeader. "requires current facilitator;
    reassigns the leader role; rejected if newLeaderIdentity is not a
    connected Participant". *)
Definition changeLeader (s : Session) (who new : string) : Session * Result :=
  if negb (isFacilitator s who) then (s, Rejected EUNAUTHORIZED)
  else if negb (isConnected s new) then (s, Rejected ENOT_FOUND)
  else
    let ps := alter (λ p, setRole p Facilitator) new
                (alter (λ p, setRole p Voter) who (participants s)) in
    (setLeader (setParticipants s ps) new,
     Accepted [LeaderChanged new] [] [SaveRosterChange (sessionID s) new]).

(** Modelled from the spec: the command processor, one command against the
    current state. *)
Definition process (s : Session) (c : Command) : Session * Result :=
  match c with
  | Join who name => join s who name
  | Leave who => leave s who
  | Vote who value => vote s who value
  | Reveal who => revealVotes s who
  | ActivateWorkItem who wid => activateWorkItem s who wid
  | FinalizePoints who pts => finalizePoints s who pts
  | ChangeLeader who new => changeLeader s who new
  end.

(** The rejections of a Vote as the specification words them, for a
    command processor [proc], one state and one Vote: with the votes
    revealed or no active WorkItem the Vote is rejected with
    EINVALID_STATE; a spectator's Vote is rejected with EUNAUTHORIZED; a
    rejected Vote leaves the work items and the Participants as they
    were. The first two conditions are not exclusive. *)
Definition voteRejectedAsWorded (proc : Session → Command → Session * Result)
    (s : Session) (who value : string) : Prop :=
  (activeItem s = None ∨ reveal s = true →
   (proc s (Vote who value)).2 = Rejected EINVALID_STATE
   ∧ workItems (proc s (Vote who value)).1 = workItems s)
  ∧ (∀ p : Participant,
       participants s !! who = Some p → role p = Spectator →
       (proc s (Vote who value)).2 = Rejected EUNAUTHORIZED)
  ∧ (∀ e : ErrorCode,
       (proc s (Vote who value)).2 = Rejected e →
       workItems (proc s (Vote who value)).1 = workItems s
       ∧ participants (proc s (Vote who value)).1 = participants s).

(** Modelled from the spec: the inbound path of a Connection. A message
    that does not decode into a Command is answered with EINVALID and the
    next message is processed as usual. *)
Inductive Message := Undecodable | Decoded (c : Command).

Definition receive (s : Session) (m : Message) : Session * Result :=
  match m with
  | Undecodable => (s, Rejected EINVALID)
  | Decoded c => process s c
  end.

(** Modelled from the spec: what one Connection is sent for a processed
    message: the submitter gets an error or the private events, every
    registered Connection gets the broadcast. *)
Inductive Outbound := Notify (e : Event) | Fail (e : ErrorCode).

Definition deliver (res : Result) (submitter conn : string) : list Outbound :=
  match res with
  | Rejected e => if String.eqb conn submitter then [Fail e] else []
  | Accepted broadcast private _ =>
      (Notify <$> broadcast) ++
      (if String.eqb conn submitter then Notify <$> private else [])
  end.

(** The session after a sequence of messages, processed in order. *)
Definition run (s : Session) (ms : list Message) : Session :=
  foldl (λ s m, (receive s m).1) s ms.




End SessionHub.

(** ** Concrete collaborators

    A small database (the list of registered users), decoders for the
    request bodies used in the examples and the two receivers built on
    them. *)

Module Fixtures.

Definition DB : Type := list User.

Definition findByEmail (e : string) (d : DB) : option User :=
  find (λ u, String.eqb (Email u) e) d.

Definition findById (i : string) (d : DB) : option User :=
  find (λ u, String.eqb (Id u) i) d.

Definition removeById (i : string) (d : DB) : DB :=
  List.filter (λ u, negb (String.eqb (Id u) i)) d.

Definition notFound : Error := Errorf "ENOT_FOUND" "USER_NOT_FOUND".

Definition ada : User := mkUser "u1" "Ada" "ada@example.org".
Definition bob : User := mkUser "u2" "Bob" "bob@example.org".

Definition users : DB := [ada; bob].

(** Bodies: the text [{}] is the empty object, the text [{] is cut short,
    any other text stands for an object whose e-mail field is that text. *)
Definition truncated : string := "{".

Definition legacyKeyVal (r : Request) : list Call * gmap string jvalue :=
  match Body r with
  | inr _ => ([WriteHeader StatusBadRequest], ∅)
  | inl body =>
      if String.eqb body truncated then ([WriteHeader StatusBadRequest], ∅)
      else if String.eqb body "{}" then ([], ∅)
      else ([], list_to_map
                  [("warriorName", JString "Eve"); ("warriorEmail", JString body);
                   ("warriorPassword", JString "secret1");
                   ("warriorPassword1", JString "secret1");
                   ("warriorPassword2", JString "secret1")])
  end.

Definition legacyDatabase : Legacy.Database DB :=
  {| Legacy.AuthUser email pwd d :=
       (match findByEmail email d with
        | Some u => (Some u, None)
        | None => (None, Some "user not found")
        end, d);
     Legacy.CreateUserRegistered name email pwd active d :=
       let u := mkUser email name email in
       ((Some u, "verify-1", None), (d ++ [u])%list);
     Legacy.UserResetRequest email d :=
       (match findByEmail email d with
        | Some u => ("reset-1", Name u, None)
        | None => ("", "", Some "user not found")
        end, d) |}.

Definition legacyApi (allow : bool) : Legacy.api DB :=
  {| Legacy.config :=
       {| Legacy.SecureCookieName := "warriorId";
          Legacy.FrontendCookieName := "warrior";
          Legacy.PathPrefix := ""; Legacy.AppDomain := "example.org";
          Legacy.SecureCookieFlag := true |};
     Legacy.database := legacyDatabase;
     Legacy.cookieEncode name value := inl ("enc:" +:+ value);
     Legacy.cookieDecode name value := inl value;
     Legacy.viperGetBool key := allow;
     Legacy.ToLower s := s;
     Legacy.getJSONRequestBody := legacyKeyVal;
     Legacy.validatorStruct acc :=
       if String.eqb (Legacy.Password1 acc) (Legacy.Password2 acc)
       then None else Some "Password2 must equal Password1" |}.

Definition database : Api.Database DB :=
  {| Api.AuthUser email pwd d :=
       (match findByEmail email d with
        | Some u => (Some u, "session-1", None)
        | None => (None, "", Some notFound)
        end, d);
     Api.CreateUserRegistered name email pwd active d :=
       let u := mkUser email name email in
       ((Some u, "verify-1", "session-1", None), (d ++ [u])%list);
     Api.UserResetRequest email d :=
       (match findByEmail email d with
        | Some u => ("reset-1", Name u, None)
        | None => ("", "", Some notFound)
        end, d);
     Api.GetUser i d :=
       (match findById i d with
        | Some u => (Some u, None)
        | None => (None, Some notFound)
        end, d);
     Api.DeleteUser i d := (None, removeById i d);
     Api.UpdateUserAccount i name email avatar notify country locale company job d :=
       (None, (λ u, if String.eqb (Id u) i then mkUser i name email else u) <$> d);
     Api.UpdateUserProfile i name avatar notify country locale company job d :=
       (None, (λ u, if String.eqb (Id u) i then mkUser i name (Email u) else u) <$> d);
     Api.UpdateUserProfileLdap i avatar notify country locale company job d :=
       (None, d) |}.

Definition api (allow : bool) : Api.api DB :=
  {| Api.database := database;
     Api.LdapEnabled := false;
     Api.adminUserType := "ADMIN";
     Api.viperGetBool key := allow;
     Api.ToLower s := s;
     Api.sessionCookieErr sid := None;
     Api.validateUserCookie r :=
       match SecureCookie r with
       | Some uid => ([], (uid, None))
       | None => ([ClearUserCookies], ("", Some (Errorf EINVALID "INVALID_USER")))
       end;
     Api.validateUserAccount name email :=
       if String.eqb name "" then Some (Errorf EINVALID "INVALID_USERNAME") else None;
     Api.validateUserAccountWithPasswords name email pwd1 pwd2 :=
       (name, email, pwd1,
        if String.eqb pwd1 pwd2 then None
        else Some (Errorf EINVALID "INVALID_PASSWORD")) |}.

Definition decode {T} (build : string → T) (body : string) : T + string :=
  if String.eqb body truncated then inr "unexpected end of JSON input"
  else inl (build body).

#[global] Instance decLogin : JSONUnmarshal Api.userLoginRequestBody :=
  decode (λ b, Api.mkLogin b "secret1").
#[global] Instance decRegister : JSONUnmarshal Api.userRegisterRequestBody :=
  decode (λ b, Api.mkRegister "Eve" b "secret1" "secret1").
#[global] Instance decForgot : JSONUnmarshal Api.forgotPasswordRequestBody :=
  decode Api.mkForgot.
#[global] Instance decProfile : JSONUnmarshal Api.userprofileUpdateRequestBody :=
  decode (λ b, Api.mkProfile "" "" false "" "" "" "" b).

(** A request with the given body, path variable [userId], session user
    id and session user type. *)
Definition request (body userId sessionUser userType : string) : Request :=
  {| Body := inl body;
     Vars := {[ "userId" := userId ]};
     CtxUserID := Some sessionUser;
     CtxUserType := Some userType;
     SecureCookie := None |}.

(** A session with a facilitator, a voter and a spectator, two work items,
    the first of them active. *)
Definition roster : gmap string SessionHub.Participant :=
  list_to_map
    [("F", SessionHub.mkParticipant "F" "Fay" SessionHub.Facilitator SessionHub.Connected None);
     ("A", SessionHub.mkParticipant "A" "Al" SessionHub.Voter SessionHub.Connected None);
     ("C", SessionHub.mkParticipant "C" "Cy" SessionHub.Spectator SessionHub.Connected None)].

Definition W1 : SessionHub.WorkItem :=
  SessionHub.mkWorkItem "W1" "login" "" 0 SessionHub.Active None [("A", "3")].
Definition W2 : SessionHub.WorkItem :=
  SessionHub.mkWorkItem "W2" "logout" "" 1 SessionHub.Pending None [("A", "8")].

Definition session (revealed : bool) : SessionHub.Session :=
  {| SessionHub.sessionID := "S"; SessionHub.kind := SessionHub.Battle;
     SessionHub.workItems := [W1; W2];
     SessionHub.activeIndex := Some 0%nat;
     SessionHub.participants := roster;
     SessionHub.reveal := revealed;
     SessionHub.autoFinishVoting := false;
     SessionHub.leader := "F" |}.

End Fixtures.

(** * The remaining handlers

    The handlers of the three files that the sections above leave out,
    LDAP apart. Those whose calls are among [Call] run in the handler
    monad as before; the others make further calls, which [Action] adds,
    and run in the same monad over a state that pairs the database with
    the actions made so far, in program order. *)

(** Whether a call writes a response body: [Failure], [Success] or the
    older [respondWithStandardJSON]. *)
Definition isReply (c : Call) : bool :=
  match c with
  | Failure _ _ | Success _ _ | respondWithStandardJSON _ _ _ _ => true
  | _ => false
  end.

Definition replies (t : list Call) : list Call := filter (λ c, isReply c = true) t.

(** The further methods of [a.db]. *)
Inductive MoreOp :=
| OpUserResetPassword | OpUserUpdatePassword | OpVerifyUserAccount
| OpDeleteSession | OpUserVerifyRequest | OpGetActiveCountries.

(** A call of the first kind, or one of: [a.createUserCookie(w, id)] of
    the newer handlers, three more mails, [w.Header().Set], a success
    carrying a list of strings, a further database method. *)
Inductive Action :=
| Base (c : Call)
| CreateUserCookie (userId : string)
| SendPasswordReset (name email : string)
| SendPasswordUpdate (name email : string)
| SendEmailVerification (name email verifyId : string)
| SetHeader (key value : string)
| SuccessStrings (status : Z) (data : list string)
| DbMore (op : MoreOp).

Section Actions.
Context {S : Type}.

Definition act (a : Action) : M (S * list Action) unit :=
  λ st, (inl tt, {| db := (st.1, (st.2 ++ [a])%list); trace := [] |}).

(** A computation of the first kind: its calls are appended as actions. *)
Definition base {A} (m : M S A) : M (S * list Action) A :=
  λ st, let '(r, w) := m st.1 in
        (r, {| db := (db w, (st.2 ++ (Base <$> trace w))%list); trace := [] |}).

Definition queryMore {A} (op : MoreOp) (f : S → A * S) : M (S * list Action) A :=
  λ st, let '(a, d) := f st.1 in
        (inl a, {| db := (d, (st.2 ++ [DbMore op])%list); trace := [] |}).

(** Serving a request: the exit, the database and the actions made. *)
Definition serveAll (h : M (S * list Action) unit) (d : S) : Exit * (S * list Action) :=
  ((serve h (d, [])).1, db (serve h (d, [])).2).
End Actions.

Definition isMailAction (a : Action) : bool :=
  match a with
  | Base c => isMail c
  | SendPasswordReset _ _ | SendPasswordUpdate _ _ | SendEmailVerification _ _ _ => true
  | _ => false
  end.

Definition isDbAction (a : Action) : bool :=
  match a with
  | Base c => isDb c
  | DbMore _ => true
  | _ => false
  end.

(** The actions that answer the request. *)
Definition isReplyAction (a : Action) : bool :=
  match a with
  | Base c => isReply c
  | SuccessStrings _ _ => true
  | _ => false
  end.

Definition replyActions (l : list Action) : list Action :=
  filter (λ a, isReplyAction a = true) l.

(** ** The older handlers left: src/api/auth.go *)

Module LegacyRest.

Record UserPassword := mkUserPassword { Password1 : string; Password2 : string }.

(** The further methods of [a.db], and validator.Struct on a
    [UserPassword]. *)
Record more (S : Type) := mkMore {
  CreateUserGuest : string → S → (option User * option string) * S;
  UserResetPassword : string → string → S → (string * string * option string) * S;
  UserUpdatePassword : string → string → S → (string * string * option string) * S;
  VerifyUserAccount : string → S → option string * S;
  validatorStruct : UserPassword → option string }.
Arguments CreateUserGuest {S}.
Arguments UserResetPassword {S}.
Arguments UserUpdatePassword {S}.
Arguments VerifyUserAccount {S}.
Arguments validatorStruct {S}.

Section Handlers.
Context {S : Type} (a : Legacy.api S) (x : more S).

Definition ValidateUserPassword (pwd1 pwd2 : string) : string * option string :=
  let p := {| Password1 := pwd1; Password2 := pwd2 |} in
  let err := validatorStruct x p in
  (pwd1, err).

Definition handleLogout (r : Request) : M S unit :=
  Legacy.clearUserCookies a;; return_.

Definition handleCreateGuestUser (r : Request) : M S unit :=
  let AllowGuests := Legacy.viperGetBool a "config.allow_guests" in
  (if negb AllowGuests then
     call (respondWithStandardJSON StatusBadRequest false [] DNil);; return_
   else mret tt);;
  keyVal ← Legacy.readJSONRequestBody a r;
  UserName ← unwrap (assertString (keyVal !! "warriorName"));
  '(newUser, err) ← query OpCreateUserGuest (CreateUserGuest x UserName);
  match err with
  | Some e =>
      call (respondWithStandardJSON StatusInternalServerError false [e] DNil);; return_
  | None =>
      u ← unwrap newUser;
      Legacy.createUserCookie a false (Id u);;
      call (respondWithStandardJSON StatusOK true [] (DUser u))
  end.

Definition handleResetPassword (r : Request) : M (S * list Action) unit :=
  keyVal ← base (Legacy.readJSONRequestBody a r);
  ResetID ← unwrap (assertString (keyVal !! "resetId"));
  pwd1 ← unwrap (assertString (keyVal !! "warriorPassword1"));
  pwd2 ← unwrap (assertString (keyVal !! "warriorPassword2"));
  let '(UserPassword, passwordErr) := ValidateUserPassword pwd1 pwd2 in
  match passwordErr with
  | Some _ =>
      act (Base (respondWithStandardJSON StatusBadRequest false [] DNil));; return_
  | None =>
      '(UserName, UserEmail, resetErr) ←
        queryMore OpUserResetPassword (UserResetPassword x ResetID UserPassword);
      match resetErr with
      | Some e =>
          act (Base (respondWithStandardJSON StatusInternalServerError false [e] DNil));;
          return_
      | None =>
          act (SendPasswordReset UserName UserEmail);;
          act (Base (respondWithStandardJSON StatusOK true [] DNil))
      end
  end.

Definition handleUpdatePassword (r : Request) : M (S * list Action) unit :=
  keyVal ← base (Legacy.readJSONRequestBody a r);
  UserID ← unwrap (CtxUserID r);
  pwd1 ← unwrap (assertString (keyVal !! "warriorPassword1"));
  pwd2 ← unwrap (assertString (keyVal !! "warriorPassword2"));
  let '(UserPassword, passwordErr) := ValidateUserPassword pwd1 pwd2 in
  match passwordErr with
  | Some _ =>
      act (Base (respondWithStandardJSON StatusBadRequest false [] DNil));; return_
  | None =>
      '(UserName, UserEmail, updateErr) ←
        queryMore OpUserUpdatePassword (UserUpdatePassword x UserID UserPassword);
      match updateErr with
      | Some e =>
          act (Base (respondWithStandardJSON StatusInternalServerError false [e] DNil));;
          return_
      | None =>
          act (SendPasswordUpdate UserName UserEmail);;
          act (Base (respondWithStandardJSON StatusOK true [] DNil))
      end
  end.

Definition handleAccountVerification (r : Request) : M (S * list Action) unit :=
  keyVal ← base (Legacy.readJSONRequestBody a r);
  VerifyID ← unwrap (assertString (keyVal !! "verifyId"));
  verifyErr ← queryMore OpVerifyUserAccount (VerifyUserAccount x VerifyID);
  match verifyErr with
  | Some e =>
      act (Base (respondWithStandardJSON StatusInternalServerError false [e] DNil));;
      return_
  | None => act (Base (respondWithStandardJSON StatusOK true [] DNil))
  end.

End Handlers.
End LegacyRest.

(** ** The newer handlers left: src/api/storyboard/storyboard.go (second
       part) and src/unnamed/part_000 *)

Module ApiRest.

Record guestUserCreateRequestBody := mkGuest { gName : string }.

Record resetPasswordRequestBody := mkReset {
  sResetID : string; sPassword1 : string; sPassword2 : string }.

Record updatePasswordRequestBody := mkUpdate {
  uPassword1 : string; uPassword2 : string }.

Record verificationRequestBody := mkVerification { vVerifyID : string }.

(** The further methods of [a.db] and the further helpers of the
    receiver, none of them among the sources: [validateSessionCookie] may
    write to the response and yields the session id and an error;
    [a.createUserCookie] is recorded as an action and its error taken from
    [userCookieErr]; [validateUserPassword] yields the password and an
    error. *)
Record more (S : Type) := mkMore {
  CreateUserGuest : string → S → (option User * option Error) * S;
  DeleteSession : string → S → option Error * S;
  UserResetPassword : string → string → S → (string * string * option Error) * S;
  UserUpdatePassword : string → string → S → (string * string * option Error) * S;
  VerifyUserAccount : string → S → option Error * S;
  UserVerifyRequest : string → S → (option User * string * option Error) * S;
  GetActiveCountries : S → (list string * option Error) * S;
  validateSessionCookie : Request → list Call * (string * option Error);
  userCookieErr : string → option Error;
  validateUserPassword : string → string → string * option Error }.
Arguments CreateUserGuest {S}.
Arguments DeleteSession {S}.
Arguments UserResetPassword {S}.
Arguments UserUpdatePassword {S}.
Arguments VerifyUserAccount {S}.
Arguments UserVerifyRequest {S}.
Arguments GetActiveCountries {S}.
Arguments validateSessionCookie {S}.
Arguments userCookieErr {S}.
Arguments validateUserPassword {S}.

Section Handlers.
Context {S : Type} (a : Api.api S) (x : more S).
Context {decGuest : JSONUnmarshal guestUserCreateRequestBody}.
Context {decReset : JSONUnmarshal resetPasswordRequestBody}.
Context {decUpdate : JSONUnmarshal updatePasswordRequestBody}.
Context {decVerification : JSONUnmarshal verificationRequestBody}.

Definition failure (status : Z) (err : Error) : M (S * list Action) unit :=
  act (Base (Failure status err)).

Definition success (status : Z) (data : Data) : M (S * list Action) unit :=
  act (Base (Success status data)).

Definition createUserCookie (UserID : string) : M (S * list Action) (option Error) :=
  act (CreateUserCookie UserID);; mret (userCookieErr x UserID).

Definition handleLogout (r : Request) : M (S * list Action) unit :=
  base (calls (validateSessionCookie x r).1);;
  let '(SessionId, cookieErr) := (validateSessionCookie x r).2 in
  match cookieErr with
  | Some _ => failure StatusUnauthorized (Errorf EINVALID "INVALID_USER");; return_
  | None => mret tt
  end;;
  err ← queryMore OpDeleteSession (DeleteSession x SessionId);
  match err with
  | Some e => failure StatusInternalServerError e;; return_
  | None => mret tt
  end;;
  base (Api.clearUserCookies);;
  success StatusOK DNil.

Definition handleCreateGuestUser (r : Request) : M (S * list Action) unit :=
  let AllowGuests := Api.viperGetBool a "config.allow_guests" in
  (if negb AllowGuests then
     failure StatusBadRequest (Errorf EINVALID "GUESTS_USERS_DISABLED");; return_
   else mret tt);;
  body ← match Body r with
         | inr bodyErr =>
             failure StatusBadRequest (Errorf EINVALID bodyErr);; return_
         | inl body => mret body
         end;
  u ← match Unmarshal body with
      | inr jsonErr =>
          failure StatusBadRequest (Errorf EINVALID jsonErr);; return_
      | inl u => mret u
      end;
  '(newUser, err) ← base (query OpCreateUserGuest (CreateUserGuest x (gName u)));
  match err with
  | Some e => failure StatusInternalServerError e;; return_
  | None => mret tt
  end;;
  nu ← unwrap newUser;
  cookieErr ← createUserCookie (Id nu);
  match cookieErr with
  | Some _ =>
      failure StatusInternalServerError (Errorf EINVALID "INVALID_COOKIE");; return_
  | None => mret tt
  end;;
  success StatusOK (DUser nu).

Definition handleResetPassword (r : Request) : M (S * list Action) unit :=
  body ← match Body r with
         | inr bodyErr =>
             failure StatusBadRequest (Errorf EINVALID bodyErr);; return_
         | inl body => mret body
         end;
  u ← match Unmarshal body with
      | inr jsonErr =>
          failure StatusBadRequest (Errorf EINVALID jsonErr);; return_
      | inl u => mret u
      end;
  let '(UserPassword, passwordErr) :=
    validateUserPassword x (sPassword1 u) (sPassword2 u) in
  match passwordErr with
  | Some e => failure StatusBadRequest e;; return_
  | None => mret tt
  end;;
  '(UserName, UserEmail, resetErr) ←
    queryMore OpUserResetPassword (UserResetPassword x (sResetID u) UserPassword);
  match resetErr with
  | Some e => failure StatusInternalServerError e;; return_
  | None => mret tt
  end;;
  act (SendPasswordReset UserName UserEmail);;
  success StatusOK DNil.

Definition handleUpdatePassword (r : Request) : M (S * list Action) unit :=
  UserID ← unwrap (CtxUserID r);
  body ← match Body r with
         | inr bodyErr =>
             failure StatusBadRequest (Errorf EINVALID bodyErr);; return_
         | inl body => mret body
         end;
  u ← match Unmarshal body with
      | inr jsonErr =>
          failure StatusBadRequest (Errorf EINVALID jsonErr);; return_
      | inl u => mret u
      end;
  let '(UserPassword, passwordErr) :=
    validateUserPassword x (uPassword1 u) (uPassword2 u) in
  match passwordErr with
  | Some e => failure StatusBadRequest e;; return_
  | None => mret tt
  end;;
  '(UserName, UserEmail, updateErr) ←
    queryMore OpUserUpdatePassword (UserUpdatePassword x UserID UserPassword);
  match updateErr with
  | Some e => failure StatusInternalServerError e;; return_
  | None => mret tt
  end;;
  act (SendPasswordUpdate UserName UserEmail);;
  success StatusOK DNil.

Definition handleAccountVerification (r : Request) : M (S * list Action) unit :=
  body ← match Body r with
         | inr bodyErr =>
             failure StatusBadRequest (Errorf EINVALID bodyErr);; return_
         | inl body => mret body
         end;
  u ← match Unmarshal body with
      | inr jsonErr =>
          failure StatusBadRequest (Errorf EINVALID jsonErr);; return_
      | inl u => mret u
      end;
  verifyErr ← queryMore OpVerifyUserAccount (VerifyUserAccount x (vVerifyID u));
  match verifyErr with
  | Some e => failure StatusInternalServerError e;; return_
  | None => mret tt
  end;;
  success StatusOK DNil.

Definition handleSessionUserProfile (r : Request) : M S unit :=
  UserID ← unwrap (CtxUserID r);
  '(User, UserErr) ← query OpGetUser (Api.GetUser (Api.database a) UserID);
  match UserErr with
  | Some e => call (Failure StatusInternalServerError e);; return_
  | None => mret tt
  end;;
  call (Success StatusOK (Api.userData User)).

Definition handleUserProfile (r : Request) : M S unit :=
  let UserID := Api.pathVar r "userId" in
  '(User, UserErr) ← query OpGetUser (Api.GetUser (Api.database a) UserID);
  match UserErr with
  | Some e => call (Failure StatusInternalServerError e);; return_
  | None => mret tt
  end;;
  call (Success StatusOK (Api.userData User)).

Definition handleVerifyRequest (r : Request) : M (S * list Action) unit :=
  let UserID := Api.pathVar r "userId" in
  '(User, VerifyId, err) ←
    queryMore OpUserVerifyRequest (UserVerifyRequest x UserID);
  match err with
  | Some e => failure StatusInternalServerError e;; return_
  | None => mret tt
  end;;
  u ← unwrap User;
  act (SendEmailVerification (Name u) (Email u) VerifyId);;
  success StatusOK DNil.

Definition handleGetActiveCountries (r : Request) : M (S * list Action) unit :=
  '(countries, err) ← queryMore OpGetActiveCountries (GetActiveCountries x);
  match err with
  | Some e => failure StatusInternalServerError e;; return_
  | None => mret tt
  end;;
  act (SetHeader "Cache-Control" "max-age=3600");;
  act (SuccessStrings StatusOK countries).

End Handlers.
End ApiRest.

(** ** Concrete collaborators for the remaining handlers *)

Module FixturesRest.

Definition legacyMore : LegacyRest.more Fixtures.DB :=
  {| LegacyRest.CreateUserGuest name d :=
       let u := mkUser ("guest:" +:+ name) name "" in
       ((Some u, None), (d ++ [u])%list);
     LegacyRest.UserResetPassword resetId pwd d :=
       (match Fixtures.findById resetId d with
        | Some u => (Name u, Email u, None)
        | None => ("", "", Some "reset not found")
        end, d);
     LegacyRest.UserUpdatePassword userId pwd d :=
       (match Fixtures.findById userId d with
        | Some u => (Name u, Email u, None)
        | None => ("", "", Some "user not found")
        end, d);
     LegacyRest.VerifyUserAccount verifyId d :=
       (match Fixtures.findById verifyId d with
        | Some _ => None
        | None => Some "verification not found"
        end, d);
     LegacyRest.validatorStruct p :=
       if String.eqb (LegacyRest.Password1 p) (LegacyRest.Password2 p)
       then None else Some "Password2 must equal Password1" |}.

Definition more : ApiRest.more Fixtures.DB :=
  {| ApiRest.CreateUserGuest name d :=
       let u := mkUser ("guest:" +:+ name) name "" in
       ((Some u, None), (d ++ [u])%list);
     ApiRest.DeleteSession sessionId d :=
       (if String.eqb sessionId "" then Some Fixtures.notFound else None, d);
     ApiRest.UserResetPassword resetId pwd d :=
       (match Fixtures.findById resetId d with
        | Some u => (Name u, Email u, None)
        | None => ("", "", Some Fixtures.notFound)
        end, d);
     ApiRest.UserUpdatePassword userId pwd d :=
       (match Fixtures.findById userId d with
        | Some u => (Name u, Email u, None)
        | None => ("", "", Some Fixtures.notFound)
        end, d);
     ApiRest.VerifyUserAccount verifyId d :=
       (match Fixtures.findById verifyId d with
        | Some _ => None
        | None => Some Fixtures.notFound
        end, d);
     ApiRest.UserVerifyRequest userId d :=
       (match Fixtures.findById userId d with
        | Some u => (Some u, "verify-1", None)
        | None => (None, "", Some Fixtures.notFound)
        end, d);
     ApiRest.GetActiveCountries d := ((["PL"; "US"], None), d);
     ApiRest.validateSessionCookie r :=
       match SecureCookie r with
       | Some sid => ([], (sid, None))
       | None => ([ClearUserCookies], ("", Some (Errorf EINVALID "INVALID_USER")))
       end;
     ApiRest.userCookieErr userId := None;
     ApiRest.validateUserPassword pwd1 pwd2 :=
       (pwd1, if String.eqb pwd1 pwd2 then None
              else Some (Errorf EINVALID "INVALID_PASSWORD")) |}.

#[global] Instance decGuest : JSONUnmarshal ApiRest.guestUserCreateRequestBody :=
  Fixtures.decode ApiRest.mkGuest.
#[global] Instance decReset : JSONUnmarshal ApiRest.resetPasswordRequestBody :=
  Fixtures.decode (λ b, ApiRest.mkReset b "secret1" "secret1").
#[global] Instance decUpdate : JSONUnmarshal ApiRest.updatePasswordRequestBody :=
  Fixtures.decode (λ b, ApiRest.mkUpdate b b).
#[global] Instance decVerification : JSONUnmarshal ApiRest.verificationRequestBody :=
  Fixtures.decode ApiRest.mkVerification.

(** A profile decoder for which the body is the new name. *)
Definition decNamedProfile : JSONUnmarshal Api.userprofileUpdateRequestBody :=
  Fixtures.decode (λ b, Api.mkProfile b "" false "" "" "" "" "ada@example.net").

(** A request that carries the secure cookie [cookie]. *)
Definition withCookie (cookie : string) : Request :=
  {| Body := inl "{}"; Vars := ∅; CtxUserID := None; CtxUserType := None;
     SecureCookie := Some cookie |}.

(** A codec that decodes what it encodes and nothing else: it puts a mark
    before the value. *)
Definition mark : Ascii.ascii := Ascii.ascii_of_nat 33.

Definition codecApi : Legacy.api Fixtures.DB :=
  {| Legacy.config := Legacy.config (Fixtures.legacyApi true);
     Legacy.database := Fixtures.legacyDatabase;
     Legacy.cookieEncode name value := inl (String mark value);
     Legacy.cookieDecode name value :=
       match value with
       | String c v =>
           if Ascii.eqb c mark then inl v
           else inr "securecookie: the value is not valid"
       | EmptyString => inr "securecookie: the value is not valid"
       end;
     Legacy.viperGetBool key := true;
     Legacy.ToLower s := s;
     Legacy.getJSONRequestBody := Fixtures.legacyKeyVal;
     Legacy.validatorStruct acc := None |}.

(** A database whose [AuthUser] reports an unknown user by a nil user and
    a nil error. *)
Definition silentApi : Legacy.api Fixtures.DB :=
  {| Legacy.config := Legacy.config (Fixtures.legacyApi true);
     Legacy.database :=
       {| Legacy.AuthUser email pwd d := ((Fixtures.findByEmail email d, None), d);
          Legacy.CreateUserRegistered :=
            Legacy.CreateUserRegistered Fixtures.legacyDatabase;
          Legacy.UserResetRequest := Legacy.UserResetRequest Fixtures.legacyDatabase |};
     Legacy.cookieEncode name value := inl ("enc:" +:+ value);
     Legacy.cookieDecode name value := inl value;
     Legacy.viperGetBool key := true;
     Legacy.ToLower s := s;
     Legacy.getJSONRequestBody := Fixtures.legacyKeyVal;
     Legacy.validatorStruct acc := None |}.

(** A receiver whose validator rejects every account, on a request that
    carries a valid cookie. *)
Definition strictApi : Legacy.api Fixtures.DB :=
  {| Legacy.config := Legacy.config (Fixtures.legacyApi true);
     Legacy.database := Fixtures.legacyDatabase;
     Legacy.cookieEncode name value := inl value;
     Legacy.cookieDecode name value := inl "";
     Legacy.viperGetBool key := true;
     Legacy.ToLower s := s;
     Legacy.getJSONRequestBody r :=
       ([], list_to_map
              [("warriorName", JString "Eve");
               ("warriorEmail", JString "eve@example.org");
               ("warriorPassword1", JString "secret1");
               ("warriorPassword2", JString "secret1")]);
     Legacy.validatorStruct acc := Some "weak password" |}.

(** A receiver whose cookie codec cannot encode. *)
Definition brokenCookieApi : Legacy.api Fixtures.DB :=
  {| Legacy.config := Legacy.config (Fixtures.legacyApi true);
     Legacy.database := Fixtures.legacyDatabase;
     Legacy.cookieEncode name value := inr "securecookie: hash key is not set";
     Legacy.cookieDecode name value := inr "securecookie: hash key is not set";
     Legacy.viperGetBool key := true;
     Legacy.ToLower s := s;
     Legacy.getJSONRequestBody := Fixtures.legacyKeyVal;
     Legacy.validatorStruct acc := None |}.

(** Collaborators whose [createUserCookie] fails. *)
Definition brokenCookieMore : ApiRest.more Fixtures.DB :=
  {| ApiRest.CreateUserGuest := ApiRest.CreateUserGuest more;
     ApiRest.DeleteSession := ApiRest.DeleteSession more;
     ApiRest.UserResetPassword := ApiRest.UserResetPassword more;
     ApiRest.UserUpdatePassword := ApiRest.UserUpdatePassword more;
     ApiRest.VerifyUserAccount := ApiRest.VerifyUserAccount more;
     ApiRest.UserVerifyRequest := ApiRest.UserVerifyRequest more;
     ApiRest.GetActiveCountries := ApiRest.GetActiveCountries more;
     ApiRest.validateSessionCookie := ApiRest.validateSessionCookie more;
     ApiRest.userCookieErr userId := Some (Errorf EINVALID "securecookie: hash key is not set");
     ApiRest.validateUserPassword := ApiRest.validateUserPassword more |}.

(** Older bodies for the remaining handlers: the text [{}] is the empty
    object, any other text an object whose reset id and verify id are
    that text, with a pair of passwords; the second password is the text
    [other] when the body is the text [mismatch]. *)
Definition restKeyVal (r : Request) : list Call * gmap string jvalue :=
  match Body r with
  | inr _ => ([WriteHeader StatusBadRequest], ∅)
  | inl body =>
      if String.eqb body Fixtures.truncated then ([WriteHeader StatusBadRequest], ∅)
      else if String.eqb body "{}" then ([], ∅)
      else ([], list_to_map
                  [("resetId", JString body); ("verifyId", JString body);
                   ("warriorPassword1", JString "secret1");
                   ("warriorPassword2",
                    JString (if String.eqb body "mismatch" then "other" else "secret1"))])
  end.

Definition restApi : Legacy.api Fixtures.DB :=
  {| Legacy.config := Legacy.config (Fixtures.legacyApi true);
     Legacy.database := Fixtures.legacyDatabase;
     Legacy.cookieEncode := Legacy.cookieEncode (Fixtures.legacyApi true);
     Legacy.cookieDecode := Legacy.cookieDecode (Fixtures.legacyApi true);
     Legacy.viperGetBool key := true;
     Legacy.ToLower s := s;
     Legacy.getJSONRequestBody := restKeyVal;
     Legacy.validatorStruct := Legacy.validatorStruct (Fixtures.legacyApi true) |}.

End FixturesRest.


(** * Properties of the handlers *)

(** Unfolds the monad so that a served handler computes. *)
(** Closes a goal whose hypothesis [H] puts a call in a list of calls of
    other kinds. *)
Ltac no_member H :=
  repeat (apply elem_of_cons in H as [H | H]; [discriminate H |]);
  by apply elem_of_nil in H.

(** Closes a goal that puts a call in a concatenation of lists of calls. *)
Ltac member :=
  repeat (rewrite elem_of_app || rewrite elem_of_cons); auto 20.

Ltac run_handler :=
  unfold serve, after, mbind, M_bind, bind, mret, M_ret, ret, call, calls,
    query, unwrap, when, return_, panic in *; simpl in *.

(** ** Malformed bodies *)

(** C1. The older handleLogin does not reject a body of the wrong shape:
    whenever the map its helper yields has no string under warriorEmail
    (the key is missing, null or of another type), the unchecked type
    assertion panics. The request is answered with nothing but what the
    helper itself wrote, no EINVALID failure among it from the handler,
    and the database is not touched. *)
Theorem legacy_handleLogin_panics {S} (a : Legacy.api S) (r : Request) (d : S) :
  assertString ((Legacy.getJSONRequestBody a r).2 !! "warriorEmail") = None →
  serve (Legacy.handleLogin a r) d
  = (Panicked, {| db := d; trace := (Legacy.getJSONRequestBody a r).1 |}).
Proof.
  intros Hshape. unfold Legacy.handleLogin, Legacy.readJSONRequestBody.
  run_handler. rewrite Hshape. simpl. by rewrite !app_nil_r.
Qed.

Lemma legacy_handleLogin_panics_witness :
  assertString ((Legacy.getJSONRequestBody (Fixtures.legacyApi true)
                   (Fixtures.request "{}" "" "" "")).2 !! "warriorEmail") = None
  ∧ serve (Legacy.handleLogin (Fixtures.legacyApi true)
             (Fixtures.request "{}" "" "" "")) Fixtures.users
    = (Panicked, {| db := Fixtures.users; trace := [] |}).
Proof.
  split; [reflexivity |].
  apply (legacy_handleLogin_panics (Fixtures.legacyApi true)
           (Fixtures.request "{}" "" "" "") Fixtures.users).
  reflexivity.
Defined.

(** The same holds for a missing password once the e-mail is a string. *)
Lemma legacy_handleLogin_panics_password {S} (a : Legacy.api S) r d email :
  assertString ((Legacy.getJSONRequestBody a r).2 !! "warriorEmail") = Some email →
  assertString ((Legacy.getJSONRequestBody a r).2 !! "warriorPassword") = None →
  (serve (Legacy.handleLogin a r) d).1 = Panicked.
Proof.
  intros He Hp. unfold Legacy.handleLogin, Legacy.readJSONRequestBody.
  run_handler. rewrite He. simpl. rewrite Hp. reflexivity.
Qed.

Section ApiBodies.
Context {S : Type} (a : Api.api S).
Context {decLogin : JSONUnmarshal Api.userLoginRequestBody}.
Context {decRegister : JSONUnmarshal Api.userRegisterRequestBody}.
Context {decForgot : JSONUnmarshal Api.forgotPasswordRequestBody}.
Context {decProfile : JSONUnmarshal Api.userprofileUpdateRequestBody}.

(** The newer handleLogin answers every undecodable body with one EINVALID
    failure of status 400, returns, and calls no database method. *)
Lemma handleLogin_rejects_undecodable r d msg :
  undecodable Api.userLoginRequestBody r msg →
  serve (Api.handleLogin a r) d
  = (Returned, {| db := d; trace := [Failure StatusBadRequest (Errorf EINVALID msg)] |}).
Proof.
  intros [Hb | (body & Hb & Hj)]; unfold Api.handleLogin; run_handler;
    rewrite Hb; simpl; [done |]. by rewrite Hj.
Qed.

Lemma handleForgotPassword_rejects_undecodable r d msg :
  undecodable Api.forgotPasswordRequestBody r msg →
  serve (Api.handleForgotPassword a r) d
  = (Returned, {| db := d; trace := [Failure StatusBadRequest (Errorf EINVALID msg)] |}).
Proof.
  intros [Hb | (body & Hb & Hj)]; unfold Api.handleForgotPassword; run_handler;
    rewrite Hb; simpl; [done |]. by rewrite Hj.
Qed.

End ApiBodies.

(** ** Forgotten passwords *)

(** C9. For a forgot-password request whose body reads and decodes, the
    newer handleForgotPassword returns normally and its response is the one
    call Success 200 with no data, whatever the database holds: two runs on
    databases that differ in whether the account exists give the same
    response, and only the mail differs, sent exactly when the reset
    request reports no error. *)
Theorem handleForgotPassword_hides_account {S} (a : Api.api S)
    {decForgot : JSONUnmarshal Api.forgotPasswordRequestBody}
    (r : Request) (body : string) (u : Api.forgotPasswordRequestBody) (d1 d2 : S) :
  Body r = inl body →
  Unmarshal body = inl u →
  (serve (Api.handleForgotPassword a r) d1).1 = Returned
  ∧ response (serve (Api.handleForgotPassword a r) d1) = [Success StatusOK DNil]
  ∧ response (serve (Api.handleForgotPassword a r) d2)
    = response (serve (Api.handleForgotPassword a r) d1)
  ∧ mails (serve (Api.handleForgotPassword a r) d1)
    = match (Api.UserResetRequest (Api.database a) (Api.ToLower a (Api.fEmail u)) d1).1 with
      | (ResetID, UserName, None) =>
          [SendForgotPassword UserName (Api.ToLower a (Api.fEmail u)) ResetID]
      | (_, _, Some _) => []
      end.
Proof.
  intros Hb Hj. unfold response, mails, Api.handleForgotPassword. run_handler.
  rewrite Hb. simpl. rewrite Hj. simpl.
  destruct (Api.UserResetRequest _ _ d1) as [[[rid1 n1] [e1|]] d1'];
    destruct (Api.UserResetRequest _ _ d2) as [[[rid2 n2] [e2|]] d2'];
    simpl; repeat split; reflexivity.
Qed.

Lemma handleForgotPassword_hides_account_witness :
  response (serve (Api.handleForgotPassword (Fixtures.api true)
                     (Fixtures.request "ada@example.org" "" "" "")) Fixtures.users)
  = [Success StatusOK DNil]
  ∧ response (serve (Api.handleForgotPassword (Fixtures.api true)
                       (Fixtures.request "ada@example.org" "" "" "")) [])
    = response (serve (Api.handleForgotPassword (Fixtures.api true)
                         (Fixtures.request "ada@example.org" "" "" "")) Fixtures.users).
Proof.
  pose proof (handleForgotPassword_hides_account (Fixtures.api true)
                (Fixtures.request "ada@example.org" "" "" "") "ada@example.org"
                (Api.mkForgot "ada@example.org") Fixtures.users []
                eq_refl eq_refl) as (_ & Hresp & Hsame & _).
  split; [exact Hresp | exact Hsame].
Defined.

(** The mail does tell the two runs apart. *)
Example handleForgotPassword_mail_differs :
  mails (serve (Api.handleForgotPassword (Fixtures.api true)
                  (Fixtures.request "ada@example.org" "" "" "")) Fixtures.users)
  = [SendForgotPassword "Ada" "ada@example.org" "reset-1"]
  ∧ mails (serve (Api.handleForgotPassword (Fixtures.api true)
                    (Fixtures.request "ada@example.org" "" "" "")) [])
    = [].
Proof. split; reflexivity. Qed.

(** The older handler, for comparison, returns without writing a response
    when the reset request succeeds and writes one when it fails. *)
Example legacy_handleForgotPassword_differs :
  response (serve (Legacy.handleForgotPassword (Fixtures.legacyApi true)
                     (Fixtures.request "ada@example.org" "" "" "")) Fixtures.users)
  = []
  ∧ response (serve (Legacy.handleForgotPassword (Fixtures.legacyApi true)
                       (Fixtures.request "ada@example.org" "" "" "")) [])
    = [respondWithStandardJSON StatusOK true [] DNil].
Proof. split; reflexivity. Qed.

(** ** Deleting a user *)



(** ** Registration while it is disabled *)

(** A call made first comes first in the served trace. *)
Lemma serve_call_first {S} (c : Call) (m : M S unit) (d : S) :
  serve (call c;; m) d = after c (serve m d).
Proof.
  unfold serve, after, mbind, M_bind, bind, call, calls. simpl.
  destruct (m d) as [[[]|e] w]; reflexivity.
Qed.

Lemma serve_skip_first {S} (m : M S unit) (d : S) :
  serve (mret tt;; m) d = serve m d.
Proof.
  unfold serve, mbind, M_bind, bind, mret, M_ret, ret. simpl.
  destruct (m d) as [[[]|e] [d' t]]; reflexivity.
Qed.

Lemma legacy_registration_guard {S} (a : Legacy.api S) (r : Request) (d : S) :
  serve (Legacy.handleUserRegistration (Legacy.allowRegistration false a) r) d
  = after (respondWithStandardJSON StatusBadRequest false [] DNil)
          (serve (Legacy.handleUserRegistration (Legacy.allowRegistration true a) r) d).
Proof.
  unfold Legacy.handleUserRegistration.
  change (Legacy.viperGetBool (Legacy.allowRegistration false a) "config.allow_registration") with false.
  change (Legacy.viperGetBool (Legacy.allowRegistration true a) "config.allow_registration") with true.
  cbn [negb when].
  rewrite serve_call_first.
  change (@ret S unit tt) with (@mret (M S) _ unit tt).
  rewrite serve_skip_first. reflexivity.
Qed.

Lemma api_registration_guard {S} (a : Api.api S)
    {decRegister : JSONUnmarshal Api.userRegisterRequestBody} (r : Request) (d : S) :
  serve (Api.handleUserRegistration (Api.allowRegistration false a) r) d
  = after (Failure StatusBadRequest (Errorf EINVALID "USER_REGISTRATION_DISABLED"))
          (serve (Api.handleUserRegistration (Api.allowRegistration true a) r) d).
Proof.
  unfold Api.handleUserRegistration.
  change (Api.viperGetBool (Api.allowRegistration false a) "config.allow_registration")
    with false.
  change (Api.viperGetBool (Api.allowRegistration true a) "config.allow_registration")
    with true.
  cbn [negb when].
  rewrite serve_call_first.
  change (@ret S unit tt) with (@mret (M S) _ unit tt).
  rewrite serve_skip_first. reflexivity.
Qed.

Lemma legacy_validateUserCookie_run {S} (a : Legacy.api S) (r : Request) (d : S) :
  ∃ active cerr t,
    Legacy.validateUserCookie a r d = (inl (active, cerr), {| db := d; trace := t |}).
Proof.
  unfold Legacy.validateUserCookie, Legacy.clearUserCookies. run_handler.
  destruct (SecureCookie r) as [c|]; [destruct (Legacy.cookieDecode _ _ _) |];
    simpl; eauto.
Qed.

Lemma legacy_registration_valid {S} (a : Legacy.api S) (b : bool) (r : Request) (d d' : S)
    (name email pwd1 pwd2 active verify : string) (cerr : option string)
    (t : list Call) (u : User) :
  assertString ((Legacy.getJSONRequestBody a r).2 !! "warriorName") = Some name →
  assertString ((Legacy.getJSONRequestBody a r).2 !! "warriorEmail") = Some email →
  assertString ((Legacy.getJSONRequestBody a r).2 !! "warriorPassword1") = Some pwd1 →
  assertString ((Legacy.getJSONRequestBody a r).2 !! "warriorPassword2") = Some pwd2 →
  Legacy.validatorStruct a
    (Legacy.mkUserAccount name (Legacy.ToLower a email) pwd1 pwd2) = None →
  Legacy.validateUserCookie a r d = (inl (active, cerr), {| db := d; trace := t |}) →
  Legacy.CreateUserRegistered (Legacy.database a) name (Legacy.ToLower a email) pwd1 active d
  = ((Some u, verify, None), d') →
  serve (Legacy.handleUserRegistration (Legacy.allowRegistration b a) r) d
  = (Returned,
     {| db := d';
        trace :=
          (if b then [] else [respondWithStandardJSON StatusBadRequest false [] DNil])
          ++ (Legacy.getJSONRequestBody a r).1 ++ t
          ++ [Db OpCreateUserRegistered]
          ++ match Legacy.createCookie a (Id u) with
             | Some cookie => [SetCookie cookie]
             | None => [WriteHeader StatusInternalServerError]
             end
          ++ [SendWelcome name (Legacy.ToLower a email) verify;
              respondWithStandardJSON StatusOK true [] (DUser u)] |}).
Proof.
  intros Hn He Hp1 Hp2 Hv Hc Hdb.
  unfold Legacy.handleUserRegistration, Legacy.readJSONRequestBody,
    Legacy.ValidateUserAccount, Legacy.createUserCookie, Legacy.createCookie.
  change (Legacy.viperGetBool (Legacy.allowRegistration b a) "config.allow_registration")
    with b.
  change (Legacy.validateUserCookie (Legacy.allowRegistration b a) r)
    with (Legacy.validateUserCookie a r).
  run_handler. destruct b; unfold ret; simpl; rewrite Hc; simpl;
    rewrite Hn; simpl; rewrite He; simpl; rewrite Hp1; simpl; rewrite Hp2; simpl;
    rewrite Hv; simpl; rewrite Hdb; simpl;
    destruct (Legacy.cookieEncode a _ (Id u)); simpl;
    rewrite ?app_nil_r, <- ?app_assoc; reflexivity.
Qed.

Lemma api_registration_valid {S} (a : Api.api S)
    {decRegister : JSONUnmarshal Api.userRegisterRequestBody}
    (b : bool) (r : Request) (d d' : S) (body : string)
    (u : Api.userRegisterRequestBody)
    (UserName UserEmail UserPassword VerifyID SessionID : string)
    (newUser : option User) :
  Body r = inl body →
  Unmarshal body = inl u →
  Api.validateUserAccountWithPasswords a (Api.rName u) (Api.ToLower a (Api.rEmail u))
    (Api.rPassword1 u) (Api.rPassword2 u)
  = (UserName, UserEmail, UserPassword, None) →
  Api.CreateUserRegistered (Api.database a) UserName UserEmail UserPassword
    (Api.validateUserCookie a r).2.1 d
  = ((newUser, VerifyID, SessionID, None), d') →
  serve (Api.handleUserRegistration (Api.allowRegistration b a) r) d
  = (Returned,
     {| db := d';
        trace :=
          (if b then []
           else [Failure StatusBadRequest (Errorf EINVALID "USER_REGISTRATION_DISABLED")])
          ++ (Api.validateUserCookie a r).1
          ++ [Db OpCreateUserRegistered; SendWelcome UserName UserEmail VerifyID]
          ++ (if String.eqb (Api.validateUserCookie a r).2.1 "" then []
              else [ClearUserCookies])
          ++ [CreateSessionCookie SessionID;
              match Api.sessionCookieErr a SessionID with
              | Some _ => Failure StatusInternalServerError (Errorf EINVALID "INVALID_COOKIE")
              | None => Success StatusOK (Api.userData newUser)
              end] |}).
Proof.
  intros Hb Hj Hv Hdb.
  unfold Api.handleUserRegistration, Api.createSessionCookie, Api.clearUserCookies.
  change (Api.viperGetBool (Api.allowRegistration b a) "config.allow_registration")
    with b.
  run_handler. rewrite Hb.
  destruct b; unfold ret; simpl; rewrite Hj; simpl; rewrite Hv; simpl;
    rewrite Hdb; simpl;
    destruct (String.eqb (Api.validateUserCookie a r).2.1 ""); simpl;
    destruct (Api.sessionCookieErr a SessionID); simpl;
    rewrite ?app_nil_r, <- ?app_assoc; reflexivity.
Qed.

Lemma legacy_registration_calls_db {S} (a : Legacy.api S) (b : bool) (r : Request) (d : S)
    (name email pwd1 pwd2 : string) :
  assertString ((Legacy.getJSONRequestBody a r).2 !! "warriorName") = Some name →
  assertString ((Legacy.getJSONRequestBody a r).2 !! "warriorEmail") = Some email →
  assertString ((Legacy.getJSONRequestBody a r).2 !! "warriorPassword1") = Some pwd1 →
  assertString ((Legacy.getJSONRequestBody a r).2 !! "warriorPassword2") = Some pwd2 →
  Legacy.validatorStruct a
    (Legacy.mkUserAccount name (Legacy.ToLower a email) pwd1 pwd2) = None →
  Db OpCreateUserRegistered
  ∈ trace (serve (Legacy.handleUserRegistration (Legacy.allowRegistration b a) r) d).2.
Proof.
  intros Hn He Hp1 Hp2 Hv.
  destruct (legacy_validateUserCookie_run a r d) as (active & cerr & t & Hc).
  unfold Legacy.handleUserRegistration, Legacy.readJSONRequestBody,
    Legacy.ValidateUserAccount, Legacy.createUserCookie.
  change (Legacy.viperGetBool (Legacy.allowRegistration b a) "config.allow_registration")
    with b.
  change (Legacy.validateUserCookie (Legacy.allowRegistration b a) r)
    with (Legacy.validateUserCookie a r).
  run_handler. destruct b; unfold ret; simpl; rewrite Hc; simpl;
    rewrite Hn; simpl; rewrite He; simpl; rewrite Hp1; simpl; rewrite Hp2; simpl;
    rewrite Hv; simpl;
    destruct (Legacy.CreateUserRegistered _ _ _ _ _ d) as [[[[u|] verify] [e|]] d'];
    simpl; try destruct (Legacy.cookieEncode a _ (Id u)); simpl; member.
Qed.

Lemma api_registration_calls_db {S} (a : Api.api S)
    {decRegister : JSONUnmarshal Api.userRegisterRequestBody}
    (b : bool) (r : Request) (d : S) (body : string)
    (u : Api.userRegisterRequestBody) (UserName UserEmail UserPassword : string) :
  Body r = inl body →
  Unmarshal body = inl u →
  Api.validateUserAccountWithPasswords a (Api.rName u) (Api.ToLower a (Api.rEmail u))
    (Api.rPassword1 u) (Api.rPassword2 u)
  = (UserName, UserEmail, UserPassword, None) →
  Db OpCreateUserRegistered
  ∈ trace (serve (Api.handleUserRegistration (Api.allowRegistration b a) r) d).2.
Proof.
  intros Hb Hj Hv.
  unfold Api.handleUserRegistration, Api.createSessionCookie, Api.clearUserCookies.
  change (Api.viperGetBool (Api.allowRegistration b a) "config.allow_registration")
    with b.
  run_handler. rewrite Hb.
  destruct b; unfold ret; simpl; rewrite Hj; simpl; rewrite Hv; simpl;
    destruct (Api.CreateUserRegistered _ _ _ _ _ d) as [[[[nu verify] sid] [e|]] d'];
    simpl; try destruct (String.eqb (Api.validateUserCookie a r).2.1 ""); simpl;
    try destruct (Api.sessionCookieErr a sid); simpl; member.
Qed.

(** C8. In both implementations of handleUserRegistration the check of
    config.allow_registration writes a 400 failure and does not return:
    the request is then served exactly as with registration enabled, only
    with that failure written first. For a request that decodes and
    validates, CreateUserRegistered is called; when it succeeds the welcome
    mail is sent and the cookie is set (the older handler through
    SetCookie, the newer through createSessionCookie). *)
Theorem registration_disabled_still_registers :
  (∀ S (a : Legacy.api S) (r : Request) (d : S),
     serve (Legacy.handleUserRegistration (Legacy.allowRegistration false a) r) d
     = after (respondWithStandardJSON StatusBadRequest false [] DNil)
         (serve (Legacy.handleUserRegistration (Legacy.allowRegistration true a) r) d))
  ∧ (∀ S (a : Api.api S) (decRegister : JSONUnmarshal Api.userRegisterRequestBody)
       (r : Request) (d : S),
     serve (Api.handleUserRegistration (Api.allowRegistration false a) r) d
     = after (Failure StatusBadRequest (Errorf EINVALID "USER_REGISTRATION_DISABLED"))
         (serve (Api.handleUserRegistration (Api.allowRegistration true a) r) d))
  ∧ (∀ S (a : Legacy.api S) (r : Request) (d : S) (name email pwd1 pwd2 : string),
     assertString ((Legacy.getJSONRequestBody a r).2 !! "warriorName") = Some name →
     assertString ((Legacy.getJSONRequestBody a r).2 !! "warriorEmail") = Some email →
     assertString ((Legacy.getJSONRequestBody a r).2 !! "warriorPassword1") = Some pwd1 →
     assertString ((Legacy.getJSONRequestBody a r).2 !! "warriorPassword2") = Some pwd2 →
     Legacy.validatorStruct a
       (Legacy.mkUserAccount name (Legacy.ToLower a email) pwd1 pwd2) = None →
     Db OpCreateUserRegistered
     ∈ trace (serve (Legacy.handleUserRegistration
                       (Legacy.allowRegistration false a) r) d).2
     ∧ ∀ (active verify : string) (cerr : option string) (t : list Call)
         (u : User) (cookie : Cookie) (d' : S),
         Legacy.validateUserCookie a r d
         = (inl (active, cerr), {| db := d; trace := t |}) →
         Legacy.CreateUserRegistered (Legacy.database a) name (Legacy.ToLower a email)
           pwd1 active d
         = ((Some u, verify, None), d') →
         Legacy.createCookie a (Id u) = Some cookie →
         (serve (Legacy.handleUserRegistration
                   (Legacy.allowRegistration false a) r) d).1 = Returned
         ∧ db (serve (Legacy.handleUserRegistration
                        (Legacy.allowRegistration false a) r) d).2 = d'
         ∧ SendWelcome name (Legacy.ToLower a email) verify
           ∈ trace (serve (Legacy.handleUserRegistration
                             (Legacy.allowRegistration false a) r) d).2
         ∧ SetCookie cookie
           ∈ trace (serve (Legacy.handleUserRegistration
                             (Legacy.allowRegistration false a) r) d).2)
  ∧ (∀ S (a : Api.api S) (decRegister : JSONUnmarshal Api.userRegisterRequestBody)
       (r : Request) (d : S) (body : string) (u : Api.userRegisterRequestBody)
       (UserName UserEmail UserPassword : string),
     Body r = inl body →
     Unmarshal body = inl u →
     Api.validateUserAccountWithPasswords a (Api.rName u)
       (Api.ToLower a (Api.rEmail u)) (Api.rPassword1 u) (Api.rPassword2 u)
     = (UserName, UserEmail, UserPassword, None) →
     Db OpCreateUserRegistered
     ∈ trace (serve (Api.handleUserRegistration (Api.allowRegistration false a) r) d).2
     ∧ ∀ (VerifyID SessionID : string) (newUser : option User) (d' : S),
         Api.CreateUserRegistered (Api.database a) UserName UserEmail UserPassword
           (Api.validateUserCookie a r).2.1 d
         = ((newUser, VerifyID, SessionID, None), d') →
         (serve (Api.handleUserRegistration (Api.allowRegistration false a) r) d).1
         = Returned
         ∧ db (serve (Api.handleUserRegistration
                        (Api.allowRegistration false a) r) d).2 = d'
         ∧ SendWelcome UserName UserEmail VerifyID
           ∈ trace (serve (Api.handleUserRegistration
                             (Api.allowRegistration false a) r) d).2
         ∧ CreateSessionCookie SessionID
           ∈ trace (serve (Api.handleUserRegistration
                             (Api.allowRegistration false a) r) d).2).
Proof.
  split; [intros; apply legacy_registration_guard |].
  split; [intros; apply api_registration_guard |].
  split.
  - intros S a r d name email pwd1 pwd2 Hn He Hp1 Hp2 Hv.
    split; [by eapply legacy_registration_calls_db |].
    intros active verify cerr t u cookie d' Hc Hdb Hcookie.
    rewrite (legacy_registration_valid a false r d d' name email pwd1 pwd2
               active verify cerr t u Hn He Hp1 Hp2 Hv Hc Hdb).
    rewrite Hcookie. simpl. repeat split; member.
  - intros S a dec r d body u UserName UserEmail UserPassword Hb Hj Hv.
    split; [by eapply api_registration_calls_db |].
    intros VerifyID SessionID newUser d' Hdb.
    rewrite (api_registration_valid a false r d d' body u UserName UserEmail
               UserPassword VerifyID SessionID newUser Hb Hj Hv Hdb).
    simpl. repeat split; member.
Qed.

Lemma registration_disabled_still_registers_witness :
  (Db OpCreateUserRegistered
   ∈ trace (serve (Legacy.handleUserRegistration
                     (Legacy.allowRegistration false (Fixtures.legacyApi true))
                     (Fixtures.request "eve@example.org" "" "" "")) Fixtures.users).2
   ∧ SendWelcome "Eve" "eve@example.org" "verify-1"
     ∈ trace (serve (Legacy.handleUserRegistration
                       (Legacy.allowRegistration false (Fixtures.legacyApi true))
                       (Fixtures.request "eve@example.org" "" "" "")) Fixtures.users).2)
  ∧ (Db OpCreateUserRegistered
     ∈ trace (serve (Api.handleUserRegistration
                       (Api.allowRegistration false (Fixtures.api true))
                       (Fixtures.request "eve@example.org" "" "" "")) Fixtures.users).2
     ∧ CreateSessionCookie "session-1"
       ∈ trace (serve (Api.handleUserRegistration
                         (Api.allowRegistration false (Fixtures.api true))
                         (Fixtures.request "eve@example.org" "" "" "")) Fixtures.users).2).
Proof.
  destruct registration_disabled_still_registers as (_ & _ & Hlegacy & Hapi).
  split.
  - destruct (Hlegacy _ (Fixtures.legacyApi true)
                (Fixtures.request "eve@example.org" "" "" "") Fixtures.users
                "Eve" "eve@example.org" "secret1" "secret1"
                eq_refl eq_refl eq_refl eq_refl eq_refl) as [Hcall Hdone].
    split; [exact Hcall |].
    edestruct Hdone as (_ & _ & Hmail & _); [reflexivity .. | exact Hmail].
  - destruct (Hapi _ (Fixtures.api true) Fixtures.decRegister
                (Fixtures.request "eve@example.org" "" "" "") Fixtures.users
                "eve@example.org"
                (Api.mkRegister "Eve" "eve@example.org" "secret1" "secret1")
                "Eve" "eve@example.org" "secret1"
                eq_refl eq_refl eq_refl) as [Hcall Hdone].
    split; [exact Hcall |].
    edestruct Hdone as (_ & _ & _ & Hcookie); [reflexivity | exact Hcookie].
Defined.

(** ** Failures and the database *)

(** C7. The failure written by the registration guard is not a rejection:
    with registration disabled, a request that decodes and validates gets
    the EINVALID failure of status 400 first and the database call
    CreateUserRegistered after it, and the database is left as that call
    leaves it. *)
Theorem registration_guard_failure_then_database_call {S} (a : Api.api S)
    {decRegister : JSONUnmarshal Api.userRegisterRequestBody}
    (r : Request) (d : S) (body : string) (u : Api.userRegisterRequestBody)
    (UserName UserEmail UserPassword : string) :
  Api.viperGetBool a "config.allow_registration" = false →
  Body r = inl body →
  Unmarshal body = inl u →
  Api.validateUserAccountWithPasswords a (Api.rName u) (Api.ToLower a (Api.rEmail u))
    (Api.rPassword1 u) (Api.rPassword2 u)
  = (UserName, UserEmail, UserPassword, None) →
  ∃ rest : list Call,
    trace (serve (Api.handleUserRegistration a r) d).2
    = Failure StatusBadRequest (Errorf EINVALID "USER_REGISTRATION_DISABLED") :: rest
    ∧ Db OpCreateUserRegistered ∈ rest
    ∧ db (serve (Api.handleUserRegistration a r) d).2
      = (Api.CreateUserRegistered (Api.database a) UserName UserEmail UserPassword
           (Api.validateUserCookie a r).2.1 d).2.
Proof.
  intros Hflag Hb Hj Hv.
  unfold Api.handleUserRegistration, Api.createSessionCookie, Api.clearUserCookies.
  rewrite Hflag. run_handler. rewrite Hb. simpl. rewrite Hj. simpl. rewrite Hv. simpl.
  destruct (Api.CreateUserRegistered _ _ _ _ _ d) as [[[[nu verify] sid] [e|]] d'];
    simpl; try destruct (String.eqb (Api.validateUserCookie a r).2.1 ""); simpl;
    try destruct (Api.sessionCookieErr a sid); simpl;
    eexists; (split; [reflexivity |]); (split; [member | reflexivity]).
Qed.

Lemma registration_guard_failure_then_database_call_witness :
  ∃ rest : list Call,
    trace (serve (Api.handleUserRegistration (Fixtures.api false)
                    (Fixtures.request "eve@example.org" "" "" "")) Fixtures.users).2
    = Failure StatusBadRequest (Errorf EINVALID "USER_REGISTRATION_DISABLED") :: rest
    ∧ Db OpCreateUserRegistered ∈ rest
    ∧ db (serve (Api.handleUserRegistration (Fixtures.api false)
                   (Fixtures.request "eve@example.org" "" "" "")) Fixtures.users).2
      = [Fixtures.ada; Fixtures.bob; mkUser "eve@example.org" "Eve" "eve@example.org"].
Proof.
  apply (registration_guard_failure_then_database_call (Fixtures.api false)
           (Fixtures.request "eve@example.org" "" "" "") Fixtures.users
           "eve@example.org"
           (Api.mkRegister "Eve" "eve@example.org" "secret1" "secret1")
           "Eve" "eve@example.org" "secret1");
    reflexivity.
Defined.

(** The older handler does the same. *)
Example legacy_registration_guard_then_database_call :
  trace (serve (Legacy.handleUserRegistration (Fixtures.legacyApi false)
                  (Fixtures.request "eve@example.org" "" "" "")) Fixtures.users).2
  !! 0%nat = Some (respondWithStandardJSON StatusBadRequest false [] DNil)
  ∧ Db OpCreateUserRegistered
    ∈ trace (serve (Legacy.handleUserRegistration (Fixtures.legacyApi false)
                      (Fixtures.request "eve@example.org" "" "" "")) Fixtures.users).2
  ∧ db (serve (Legacy.handleUserRegistration (Fixtures.legacyApi false)
                 (Fixtures.request "eve@example.org" "" "" "")) Fixtures.users).2
    ≠ Fixtures.users.
Proof.
  split; [reflexivity |].
  split; [vm_compute; by repeat constructor | intros H; vm_compute in H; discriminate H].
Qed.

(** On the profile handler every failure of status 400 (unreadable or
    undecodable body, invalid account, empty user name) is the only call
    of the request: no database method ran and the database is as
    before. *)
Lemma handleUserProfileUpdate_bad_request_before_database {S} (a : Api.api S)
    {decProfile : JSONUnmarshal Api.userprofileUpdateRequestBody}
    (r : Request) (d : S) (e : Error) :
  Failure StatusBadRequest e ∈ trace (serve (Api.handleUserProfileUpdate a r) d).2 →
  serve (Api.handleUserProfileUpdate a r) d
  = (Returned, {| db := d; trace := [Failure StatusBadRequest e] |}).
Proof.
  unfold Api.handleUserProfileUpdate. run_handler.
  destruct (CtxUserType r) as [ty|]; simpl; [| intros H; no_member H].
  destruct (Body r) as [body | bodyErr]; simpl;
    [| intros H; apply list_elem_of_singleton in H; by inversion H].
  destruct (Unmarshal body) as [profile | jsonErr]; simpl;
    [| intros H; apply list_elem_of_singleton in H; by inversion H].
  destruct (String.eqb ty (Api.adminUserType a)); simpl.
  - destruct (Api.validateUserAccount a _ _) as [vErr|]; simpl;
      [intros H; apply list_elem_of_singleton in H; by inversion H |].
    destruct (Api.UpdateUserAccount _ _ _ _ _ _ _ _ _ _ d) as [[err|] d1]; simpl;
      [intros H; no_member H |].
    destruct (Api.GetUser _ _ d1) as [[user [err|]] d2]; simpl; intros H; no_member H.
  - destruct (Api.LdapEnabled a); simpl.
    + destruct (Api.UpdateUserProfileLdap _ _ _ _ _ _ _ _ d) as [[err|] d1]; simpl;
        [intros H; no_member H |].
      destruct (Api.GetUser _ _ d1) as [[user [err|]] d2]; simpl; intros H; no_member H.
    + destruct (String.eqb (Api.pName profile) ""); simpl;
        [intros H; apply list_elem_of_singleton in H; by inversion H |].
      destruct (Api.UpdateUserProfile _ _ _ _ _ _ _ _ _ d) as [[err|] d1]; simpl;
        [intros H; no_member H |].
      destruct (Api.GetUser _ _ d1) as [[user [err|]] d2]; simpl; intros H; no_member H.
Qed.

(** * Properties of the session hub *)

Section SessionProperties.
Import SessionHub.

(** A rejected message leaves the session as it was. *)
Lemma process_rejected_unchanged (s s' : Session) (c : Command) (e : ErrorCode) :
  process s c = (s', Rejected e) → s' = s.
Proof.
  destruct c; simpl;
    unfold join, leave, vote, revealVotes, activateWorkItem, finalizePoints,
      changeLeader;
    repeat case_match; intros ?; by simplify_eq.
Qed.

Lemma receive_rejected_unchanged (s s' : Session) (m : Message) (e : ErrorCode) :
  receive s m = (s', Rejected e) → s' = s.
Proof.
  destruct m as [| c]; simpl; [intros H; by inversion H |].
  apply process_rejected_unchanged.
Qed.

(** An undecodable message is answered with EINVALID, and the messages
    after it are processed as if it had not been sent. *)
Lemma undecodable_rejected (s : Session) (before later : list Message) :
  receive s Undecodable = (s, Rejected EINVALID)
  ∧ run s (before ++ Undecodable :: later) = run s (before ++ later).
Proof.
  split; [reflexivity |]. unfold run. by rewrite !foldl_app.
Qed.

(** A rejection reaches the submitter alone. *)
Lemma rejection_is_private (e : ErrorCode) (submitter conn : string) :
  deliver (Rejected e) submitter submitter = [Fail e]
  ∧ (conn ≠ submitter → deliver (Rejected e) submitter conn = []).
Proof.
  unfold deliver. rewrite String.eqb_refl. split; [done |].
  intros Hne. by destruct (String.eqb_spec conn submitter).
Qed.

(** C3, as the processor has it. A Vote is rejected with EINVALID_STATE,
    the session unchanged, when there is no active work item or its votes
    are revealed; otherwise, while voting is open, the Vote of a spectator
    is rejected with EUNAUTHORIZED; a spectator's Vote is rejected in
    every state; and whatever the rejection, the session after it, stored
    votes included, is the session before it. *)
Theorem vote_rejections (s : Session) (who value : string) :
  (activeItem s = None ∨ reveal s = true →
   process s (Vote who value) = (s, Rejected EINVALID_STATE))
  ∧ (∀ p : Participant,
       participants s !! who = Some p → role p = Spectator →
       (is_Some (activeItem s) → reveal s = false →
        process s (Vote who value) = (s, Rejected EUNAUTHORIZED))
       ∧ ∃ e, process s (Vote who value) = (s, Rejected e))
  ∧ (∀ (s' : Session) (e : ErrorCode),
       process s (Vote who value) = (s', Rejected e) →
       s' = s ∧ workItems s' = workItems s ∧ participants s' = participants s).
Proof.
  split; [| split].
  - simpl. unfold vote. intros [Hnone | Hrev].
    + by rewrite Hnone.
    + destruct (activeItem s) as [[i w]|]; [by rewrite Hrev | done].
  - intros p Hp Hrole.
    assert (mayVote s who = false) as Hmay.
    { unfold mayVote. rewrite Hp, Hrole. reflexivity. }
    simpl. unfold vote. rewrite Hmay. simpl.
    split.
    + intros [[i w] Hact] Hrev. by rewrite Hact, Hrev.
    + destruct (activeItem s) as [[i w]|]; [destruct (reveal s) |]; eauto.
  - intros s' e H. apply process_rejected_unchanged in H. by subst.
Qed.

Lemma vote_rejections_witness :
  process (Fixtures.session true) (Vote "A" "5")
  = (Fixtures.session true, Rejected EINVALID_STATE)
  ∧ process (Fixtures.session false) (Vote "C" "5")
    = (Fixtures.session false, Rejected EUNAUTHORIZED)
  ∧ workItems (process (Fixtures.session true) (Vote "A" "5")).1
    = [Fixtures.W1; Fixtures.W2].
Proof.
  split; [| split].
  - apply (vote_rejections (Fixtures.session true) "A" "5"). right. reflexivity.
  - destruct (vote_rejections (Fixtures.session false) "C" "5") as (_ & Hspectator & _).
    apply (Hspectator (mkParticipant "C" "Cy" Spectator Connected None)).
    + reflexivity.
    + reflexivity.
    + exists (0%nat, Fixtures.W1). reflexivity.
    + reflexivity.
  - destruct (vote_rejections (Fixtures.session true) "A" "5") as (_ & _ & Hsame).
    destruct (Hsame (process (Fixtures.session true) (Vote "A" "5")).1 EINVALID_STATE
                eq_refl) as (_ & Hitems & _).
    exact Hitems.
Defined.

(** No command processor rejects as the specification words it in a state
    where both conditions hold: a spectator's Vote, with the votes revealed
    or no active work item, would have to be rejected with two different
    errors. *)
Lemma vote_conditions_overlap (proc : Session → Command → Session * Result)
    (s : Session) (who value : string) (p : Participant) :
  participants s !! who = Some p → role p = Spectator →
  activeItem s = None ∨ reveal s = true →
  ¬ voteRejectedAsWorded proc s who value.
Proof.
  intros Hp Hrole Hstate (Hinvalid & Hspectator & _).
  destruct (Hinvalid Hstate) as [Hfirst _].
  specialize (Hspectator p Hp Hrole). rewrite Hfirst in Hspectator.
  discriminate Hspectator.
Qed.

(** C3, as stated, fails: the Vote of spectator C in a session whose
    votes are revealed is rejected with EINVALID_STATE, as every Vote
    after a Reveal, and so not with EUNAUTHORIZED. *)
Lemma vote_rejections_counterexample :
  ¬ voteRejectedAsWorded process (Fixtures.session true) "C" "5"
  ∧ process (Fixtures.session true) (Vote "C" "5")
    = (Fixtures.session true, Rejected EINVALID_STATE).
Proof.
  split; [| reflexivity].
  intros (_ & Hspectator & _).
  specialize (Hspectator (mkParticipant "C" "Cy" Spectator Connected None)
                eq_refl eq_refl).
  vm_compute in Hspectator. discriminate Hspectator.
Qed.

(** C4. For an ActivateWorkItem issued by a facilitator: when no work
    item has the id the command is rejected with ENOT_FOUND and the
    session is unchanged; otherwise the command is accepted and the active
    work item of the new session has that id, an empty vote set and the
    reveal flag cleared, whatever votes it held before, and no Participant
    keeps a current vote. *)
Theorem activate_clears_votes (s : Session) (who wid : string) :
  isFacilitator s who = true →
  ((∀ w, w ∈ workItems s → id w ≠ wid) →
   process s (ActivateWorkItem who wid) = (s, Rejected ENOT_FOUND))
  ∧ ((∃ w, w ∈ workItems s ∧ id w = wid) →
     ∃ (j : nat) (w' : WorkItem),
       (process s (ActivateWorkItem who wid)).2 = Accepted [WorkItemActivated wid] [] []
       ∧ activeItem (process s (ActivateWorkItem who wid)).1 = Some (j, w')
       ∧ id w' = wid
       ∧ votes w' = []
       ∧ reveal (process s (ActivateWorkItem who wid)).1 = false
       ∧ ∀ k p, participants (process s (ActivateWorkItem who wid)).1 !! k = Some p →
                currentVote p = None).
Proof.
  intros Hfac. simpl. unfold activateWorkItem. rewrite Hfac. simpl. split.
  - intros Hunknown.
    assert (list_find (hasId wid) (workItems s) = None) as ->; [| done].
    apply list_find_None, Forall_forall. intros w Hw. by apply Hunknown.
  - intros (w & Hw & Hid).
    destruct (list_find_elem_of (hasId wid) (workItems s) w Hw Hid) as [[j x] Hfind].
    rewrite Hfind. simpl.
    apply list_find_Some in Hfind as (Hj & Hx & _).
    exists j, (setVotes (setStatus x Active) []).
    split; [done |]. split.
    + unfold activeItem. simpl. rewrite list_lookup_insert_eq; [done |].
      rewrite length_fmap. by eapply lookup_lt_Some.
    + repeat split; [exact Hx |].
      intros k p. rewrite lookup_fmap.
      destruct (participants s !! k); simpl; intros ?; by simplify_eq.
Qed.

Lemma activate_clears_votes_witness :
  process (Fixtures.session true) (ActivateWorkItem "F" "W9")
  = (Fixtures.session true, Rejected ENOT_FOUND)
  ∧ ∃ (j : nat) (w' : WorkItem),
      (process (Fixtures.session true) (ActivateWorkItem "F" "W2")).2
      = Accepted [WorkItemActivated "W2"] [] []
      ∧ activeItem (process (Fixtures.session true) (ActivateWorkItem "F" "W2")).1
        = Some (j, w')
      ∧ id w' = "W2"
      ∧ votes w' = []
      ∧ reveal (process (Fixtures.session true) (ActivateWorkItem "F" "W2")).1 = false
      ∧ ∀ k p,
          participants (process (Fixtures.session true) (ActivateWorkItem "F" "W2")).1
            !! k = Some p →
          currentVote p = None.
Proof.
  split.
  - apply (activate_clears_votes (Fixtures.session true) "F" "W9"); [reflexivity |].
    simpl. intros w Hw.
    apply elem_of_cons in Hw as [-> | Hw]; [discriminate |].
    apply elem_of_cons in Hw as [-> | Hw]; [discriminate |].
    by apply elem_of_nil in Hw.
  - apply (activate_clears_votes (Fixtures.session true) "F" "W2"); [reflexivity |].
    exists Fixtures.W2. split; [| reflexivity]. simpl. by repeat constructor.
Defined.






End SessionProperties.


(** * Further properties of the handlers *)

Ltac run_actions :=
  unfold serveAll, ApiRest.failure, ApiRest.success, ApiRest.createUserCookie,
    act, base, queryMore in *;
  run_handler.

(** ** Logging in *)

(** X1. The newer handleLogin never panics, writes exactly one response
    whatever the request and the database, and creates a session cookie
    only for the session id that [AuthUser] returned without an error for
    the decoded, lower-cased credentials. *)
Theorem handleLogin_one_reply {S} (a : Api.api S)
    {decLogin : JSONUnmarshal Api.userLoginRequestBody} (r : Request) (d : S) :
  (serve (Api.handleLogin a r) d).1 = Returned
  ∧ length (replies (trace (serve (Api.handleLogin a r) d).2)) = 1%nat
  ∧ ∀ sid, CreateSessionCookie sid ∈ trace (serve (Api.handleLogin a r) d).2 →
      ∃ body u user d',
        Body r = inl body ∧ Unmarshal body = inl u
        ∧ Api.AuthUser (Api.database a) (Api.ToLower a (Api.lEmail u)) (Api.lPassword u) d
          = ((user, sid, None), d').
Proof.
  unfold Api.handleLogin, Api.createSessionCookie, replies. run_handler.
  destruct (Body r) as [body | bodyErr]; simpl;
    [| repeat split; try done; intros sid H; no_member H].
  destruct (Unmarshal body) as [u | jsonErr] eqn:Hj; simpl;
    [| repeat split; try done; intros sid H; no_member H].
  destruct (Api.AuthUser _ _ _ d) as [[[user sid'] [e|]] d'] eqn:Hauth; simpl;
    [repeat split; try done; intros sid H; no_member H |].
  destruct (Api.sessionCookieErr a sid'); simpl; repeat split; try done;
    intros sid H; apply elem_of_cons in H as [H | H]; try discriminate H;
    apply elem_of_cons in H as [H | H]; try (by simplify_eq; eauto 10);
    try no_member H.
Qed.

Lemma handleLogin_one_reply_witness :
  CreateSessionCookie "session-1"
  ∈ trace (serve (Api.handleLogin (Fixtures.api true)
                    (Fixtures.request "ada@example.org" "" "" "")) Fixtures.users).2
  ∧ ∃ body u user d',
      Body (Fixtures.request "ada@example.org" "" "" "") = inl body
      ∧ Unmarshal body = inl u
      ∧ Api.AuthUser (Api.database (Fixtures.api true))
          (Api.ToLower (Fixtures.api true) (Api.lEmail u)) (Api.lPassword u)
          Fixtures.users
        = ((user, "session-1", None), d').
Proof.
  assert (CreateSessionCookie "session-1"
          ∈ trace (serve (Api.handleLogin (Fixtures.api true)
                            (Fixtures.request "ada@example.org" "" "" ""))
                     Fixtures.users).2) as Hin.
  { vm_compute. by repeat constructor. }
  split; [exact Hin |].
  destruct (handleLogin_one_reply (Fixtures.api true)
              (Fixtures.request "ada@example.org" "" "" "") Fixtures.users)
    as (_ & _ & Honly).
  exact (Honly "session-1" Hin).
Defined.

(** X2. For a body with both credentials, the older handleLogin sets a cookie
    only for a user that [AuthUser] returned without an error, and it is
    the thirty-day cookie of that user's id; when [AuthUser] returns an
    error the request gets the 401 response and nothing else. *)
Theorem legacy_handleLogin_cookie_when_authenticated {S} (a : Legacy.api S)
    (r : Request) (d : S) (email pwd : string) :
  assertString ((Legacy.getJSONRequestBody a r).2 !! "warriorEmail") = Some email →
  assertString ((Legacy.getJSONRequestBody a r).2 !! "warriorPassword") = Some pwd →
  ∃ rest : list Call,
    trace (serve (Legacy.handleLogin a r) d).2
    = ((Legacy.getJSONRequestBody a r).1 ++ Db OpAuthUser :: rest)%list
    ∧ db (serve (Legacy.handleLogin a r) d).2
      = (Legacy.AuthUser (Legacy.database a) (Legacy.ToLower a email) pwd d).2
    ∧ (∀ c, SetCookie c ∈ rest →
         ∃ u, (Legacy.AuthUser (Legacy.database a) (Legacy.ToLower a email) pwd d).1
              = (Some u, None)
              ∧ Legacy.createCookie a (Id u) = Some c
              ∧ CMaxAge c = 2592000
              ∧ rest = [SetCookie c; respondWithStandardJSON StatusOK true [] (DUser u)])
    ∧ (∀ u e, (Legacy.AuthUser (Legacy.database a) (Legacy.ToLower a email) pwd d).1
              = (u, Some e) →
         (serve (Legacy.handleLogin a r) d).1 = Returned
         ∧ rest = [respondWithStandardJSON StatusUnauthorized false [] DNil]).
Proof.
  intros He Hp. unfold Legacy.handleLogin, Legacy.readJSONRequestBody,
    Legacy.authUserDatabase. run_handler.
  rewrite He. simpl. rewrite Hp. simpl.
  destruct (Legacy.AuthUser _ _ _ d) as [[user [e|]] d'] eqn:Hauth; simpl.
  - eexists. split; [by rewrite app_nil_r |]. split; [done |]. split.
    + intros c H. no_member H.
    + intros u e' Heq. by simplify_eq.
  - destruct user as [u|]; simpl.
    + destruct (Legacy.createCookie a (Id u)) as [c|] eqn:Hc; simpl.
      * eexists. split; [by rewrite app_nil_r |]. split; [done |]. split.
        -- intros c' H. apply elem_of_cons in H as [H | H]; [| no_member H].
           simplify_eq. exists u. repeat split; try done.
           unfold Legacy.createCookie in Hc.
           destruct (Legacy.cookieEncode a _ _); by simplify_eq.
        -- intros u' e' Heq. by simplify_eq.
      * eexists. split; [by rewrite app_nil_r |]. split; [done |]. split.
        -- intros c H. no_member H.
        -- intros u' e' Heq. by simplify_eq.
    + exists []. split; [by rewrite !app_nil_r |]. split; [done |]. split.
      * intros c H. no_member H.
      * intros u' e' Heq. by simplify_eq.
Qed.

Lemma legacy_handleLogin_cookie_when_authenticated_witness :
  ∃ rest : list Call,
    trace (serve (Legacy.handleLogin (Fixtures.legacyApi true)
                    (Fixtures.request "ada@example.org" "" "" "")) Fixtures.users).2
    = ((Legacy.getJSONRequestBody (Fixtures.legacyApi true)
          (Fixtures.request "ada@example.org" "" "" "")).1
       ++ Db OpAuthUser :: rest)%list
    ∧ length rest = 2%nat.
Proof.
  destruct (legacy_handleLogin_cookie_when_authenticated (Fixtures.legacyApi true)
              (Fixtures.request "ada@example.org" "" "" "") Fixtures.users
              "ada@example.org" "secret1" eq_refl eq_refl)
    as (rest & Htrace & _ & _ & _).
  exists rest. split; [exact Htrace |].
  vm_compute in Htrace. by injection Htrace as <-.
Defined.

(** X3. When [AuthUser] returns neither a user nor an error (the case
    authUserDatabase logs as an unknown user), the older handleLogin
    panics on the nil user after the database call, with no response. *)
Theorem legacy_handleLogin_unknown_user_panics {S} (a : Legacy.api S)
    (r : Request) (d d' : S) (email pwd : string) :
  assertString ((Legacy.getJSONRequestBody a r).2 !! "warriorEmail") = Some email →
  assertString ((Legacy.getJSONRequestBody a r).2 !! "warriorPassword") = Some pwd →
  Legacy.AuthUser (Legacy.database a) (Legacy.ToLower a email) pwd d = ((None, None), d') →
  serve (Legacy.handleLogin a r) d
  = (Panicked,
     {| db := d'; trace := ((Legacy.getJSONRequestBody a r).1 ++ [Db OpAuthUser])%list |}).
Proof.
  intros He Hp Hauth. unfold Legacy.handleLogin, Legacy.readJSONRequestBody,
    Legacy.authUserDatabase. run_handler.
  rewrite He. simpl. rewrite Hp. simpl. rewrite Hauth. simpl.
  by rewrite !app_nil_r.
Qed.

Lemma legacy_handleLogin_unknown_user_panics_witness :
  serve (Legacy.handleLogin FixturesRest.silentApi
           (Fixtures.request "nobody@example.org" "" "" "")) Fixtures.users
  = (Panicked, {| db := Fixtures.users; trace := [Db OpAuthUser] |}).
Proof.
  apply (legacy_handleLogin_unknown_user_panics FixturesRest.silentApi
           (Fixtures.request "nobody@example.org" "" "" "") Fixtures.users Fixtures.users
           "nobody@example.org" "secret1");
    reflexivity.
Defined.

(** ** Cookies of the older handlers *)

(** X4. With a codec that decodes what it encodes, the cookie that createCookie
    makes for a user id is read back by validateUserCookie as that id,
    without an error and without a call. *)
Theorem legacy_cookie_round_trip {S} (a : Legacy.api S) (r : Request) (d : S)
    (UserID : string) (cookie : Cookie) :
  (∀ name value encoded,
     Legacy.cookieEncode a name value = inl encoded →
     Legacy.cookieDecode a name encoded = inl value) →
  Legacy.createCookie a UserID = Some cookie →
  SecureCookie r = Some (CValue cookie) →
  CName cookie = Legacy.SecureCookieName (Legacy.config a)
  ∧ Legacy.validateUserCookie a r d = (inl (UserID, None), {| db := d; trace := [] |}).
Proof.
  intros Hcodec Hcookie Hr. unfold Legacy.createCookie in Hcookie.
  destruct (Legacy.cookieEncode a _ UserID) as [encoded | err] eqn:Henc; [| done].
  simplify_eq. simpl in *. split; [done |].
  unfold Legacy.validateUserCookie. rewrite Hr, (Hcodec _ _ _ Henc). reflexivity.
Qed.

Lemma legacy_cookie_round_trip_witness :
  Legacy.validateUserCookie FixturesRest.codecApi (FixturesRest.withCookie "!u1")
    Fixtures.users
  = (inl ("u1", None), {| db := Fixtures.users; trace := [] |}).
Proof.
  eapply (legacy_cookie_round_trip FixturesRest.codecApi
            (FixturesRest.withCookie "!u1") Fixtures.users "u1").
  - intros name value encoded Henc. simpl in *. inversion Henc. reflexivity.
  - reflexivity.
  - reflexivity.
Defined.

(** X5. A request without the secure cookie, or with one that does not decode,
    gets from validateUserCookie the empty user id with an error and
    exactly the calls of handleLogout: the two cookies, of the front end
    and of the back end, emptied and expired. The database is not touched. *)
Theorem legacy_bad_cookie_logs_out {S} (a : Legacy.api S) (r : Request) (d : S) :
  (SecureCookie r = None
   ∨ ∃ value err, SecureCookie r = Some value
       ∧ Legacy.cookieDecode a (Legacy.SecureCookieName (Legacy.config a)) value = inr err) →
  ∃ t : list Call,
    Legacy.validateUserCookie a r d
    = (inl ("", Some "invalid user cookies"), {| db := d; trace := t |})
    ∧ serve (LegacyRest.handleLogout a r) d = (Returned, {| db := d; trace := t |})
    ∧ length t = 2%nat
    ∧ ∀ c, c ∈ t → ∃ k, c = SetCookie k ∧ CValue k = "" ∧ CMaxAge k = -1.
Proof.
  intros Hbad. eexists.
  split; [| split; [| split]].
  - unfold Legacy.validateUserCookie, Legacy.clearUserCookies. run_handler.
    destruct Hbad as [-> | (value & err & -> & ->)]; reflexivity.
  - unfold LegacyRest.handleLogout, Legacy.clearUserCookies. run_handler. reflexivity.
  - reflexivity.
  - intros c Hc.
    apply elem_of_cons in Hc as [-> | Hc]; [eauto |].
    apply elem_of_cons in Hc as [-> | Hc]; [eauto |].
    by apply elem_of_nil in Hc.
Qed.

Lemma legacy_bad_cookie_logs_out_witness :
  ∃ t : list Call,
    Legacy.validateUserCookie FixturesRest.codecApi (FixturesRest.withCookie "forged")
      Fixtures.users
    = (inl ("", Some "invalid user cookies"), {| db := Fixtures.users; trace := t |})
    ∧ serve (LegacyRest.handleLogout FixturesRest.codecApi
               (FixturesRest.withCookie "forged")) Fixtures.users
      = (Returned, {| db := Fixtures.users; trace := t |})
    ∧ length t = 2%nat
    ∧ ∀ c, c ∈ t → ∃ k, c = SetCookie k ∧ CValue k = "" ∧ CMaxAge k = -1.
Proof.
  apply (legacy_bad_cookie_logs_out FixturesRest.codecApi
           (FixturesRest.withCookie "forged") Fixtures.users).
  right. exists "forged", "securecookie: the value is not valid".
  split; reflexivity.
Defined.

(** X6. createUserCookie sets for a registered user the very cookie that
    createCookie makes at login, and for a guest the same cookie but for
    its lifetime, 365 days instead of 30; when the codec fails it sets no
    cookie and writes status 500. *)
Theorem legacy_createUserCookie_lifetimes {S} (a : Legacy.api S) (UserID : string)
    (d : S) :
  (∀ cookie, Legacy.createCookie a UserID = Some cookie →
     Legacy.createUserCookie a true UserID d
     = (inl tt, {| db := d; trace := [SetCookie cookie] |})
     ∧ CMaxAge cookie = 30 * 86400
     ∧ Legacy.createUserCookie a false UserID d
       = (inl tt,
          {| db := d;
             trace := [SetCookie
                         {| CName := CName cookie; CValue := CValue cookie;
                            CPath := CPath cookie; CDomain := CDomain cookie;
                            CMaxAge := 365 * 86400; CSecure := CSecure cookie;
                            CHttpOnly := CHttpOnly cookie;
                            CSameSiteStrict := CSameSiteStrict cookie |}] |}))
  ∧ (Legacy.createCookie a UserID = None →
     ∀ isRegistered,
       Legacy.createUserCookie a isRegistered UserID d
       = (inl tt, {| db := d; trace := [WriteHeader StatusInternalServerError] |})).
Proof.
  unfold Legacy.createCookie, Legacy.createUserCookie. run_handler.
  destruct (Legacy.cookieEncode a _ UserID) as [encoded | err]; split; try done.
  intros cookie Hc. by simplify_eq.
Qed.

Lemma legacy_createUserCookie_lifetimes_witness :
  ∃ cookie,
    Legacy.createUserCookie (Fixtures.legacyApi true) true "u1" Fixtures.users
    = (inl tt, {| db := Fixtures.users; trace := [SetCookie cookie] |})
    ∧ CMaxAge cookie = 30 * 86400.
Proof.
  destruct (legacy_createUserCookie_lifetimes (Fixtures.legacyApi true) "u1" Fixtures.users)
    as [Hsome _].
  eexists. 
  destruct (Hsome _ eq_refl) as (Hreg & Hage & _).
  split; [exact Hreg | exact Hage].
Defined.

(** ** Forgotten passwords, the older handler *)

(** X7. For a body with a string e-mail, the older handleForgotPassword
    answers differently according to the account: when the reset request
    succeeds it sends the mail and returns without writing any response,
    when it fails it writes the 200 response. The response is empty exactly
    when the mail was sent. *)
Theorem legacy_handleForgotPassword_response_tells {S} (a : Legacy.api S)
    (r : Request) (d : S) (email : string) :
  assertString ((Legacy.getJSONRequestBody a r).2 !! "warriorEmail") = Some email →
  (Legacy.getJSONRequestBody a r).1 = [] →
  (serve (Legacy.handleForgotPassword a r) d).1 = Returned
  ∧ (response (serve (Legacy.handleForgotPassword a r) d) = []
     ∨ response (serve (Legacy.handleForgotPassword a r) d)
       = [respondWithStandardJSON StatusOK true [] DNil])
  ∧ (response (serve (Legacy.handleForgotPassword a r) d) = []
     ↔ (Legacy.UserResetRequest (Legacy.database a) (Legacy.ToLower a email) d).1.2 = None)
  ∧ (response (serve (Legacy.handleForgotPassword a r) d) = []
     ↔ mails (serve (Legacy.handleForgotPassword a r) d) ≠ []).
Proof.
  intros He Hquiet. unfold response, mails, Legacy.handleForgotPassword,
    Legacy.readJSONRequestBody. run_handler.
  rewrite He, Hquiet. simpl.
  destruct (Legacy.UserResetRequest _ _ d) as [[[rid name] [e|]] d']; simpl;
    repeat split; auto; try done.
Qed.

Lemma legacy_handleForgotPassword_response_tells_witness :
  response (serve (Legacy.handleForgotPassword (Fixtures.legacyApi true)
                     (Fixtures.request "ada@example.org" "" "" "")) Fixtures.users) = []
  ↔ (Legacy.UserResetRequest (Legacy.database (Fixtures.legacyApi true))
       (Legacy.ToLower (Fixtures.legacyApi true) "ada@example.org") Fixtures.users).1.2
    = None.
Proof.
  apply (legacy_handleForgotPassword_response_tells (Fixtures.legacyApi true)
           (Fixtures.request "ada@example.org" "" "" "") Fixtures.users
           "ada@example.org");
    reflexivity.
Defined.

(** ** Registration *)

(** X8. In both implementations an account that does not validate is
    rejected with status 400 and the registration never reaches the
    database, whether registration is enabled or not: after what the
    helpers wrote the 400 response is the last call, no database method
    runs and the database is as before. *)
Theorem registration_invalid_account_before_database :
  (∀ S (a : Legacy.api S) (r : Request) (d : S) (name email pwd1 pwd2 e active : string)
     (cerr : option string) (t : list Call),
     assertString ((Legacy.getJSONRequestBody a r).2 !! "warriorName") = Some name →
     assertString ((Legacy.getJSONRequestBody a r).2 !! "warriorEmail") = Some email →
     assertString ((Legacy.getJSONRequestBody a r).2 !! "warriorPassword1") = Some pwd1 →
     assertString ((Legacy.getJSONRequestBody a r).2 !! "warriorPassword2") = Some pwd2 →
     Legacy.validatorStruct a
       (Legacy.mkUserAccount name (Legacy.ToLower a email) pwd1 pwd2) = Some e →
     Legacy.validateUserCookie a r d = (inl (active, cerr), {| db := d; trace := t |}) →
     serve (Legacy.handleUserRegistration a r) d
     = (Returned,
        {| db := d;
           trace :=
             (if Legacy.viperGetBool a "config.allow_registration" then []
              else [respondWithStandardJSON StatusBadRequest false [] DNil])
             ++ (Legacy.getJSONRequestBody a r).1 ++ t
             ++ [respondWithStandardJSON StatusBadRequest false [e] DNil] |}))
  ∧ (∀ S (a : Api.api S) (decRegister : JSONUnmarshal Api.userRegisterRequestBody)
       (r : Request) (d : S) (body : string) (u : Api.userRegisterRequestBody)
       (e : Error),
     Body r = inl body →
     Unmarshal body = inl u →
     (Api.validateUserAccountWithPasswords a (Api.rName u)
        (Api.ToLower a (Api.rEmail u)) (Api.rPassword1 u) (Api.rPassword2 u)).2 = Some e →
     serve (Api.handleUserRegistration a r) d
     = (Returned,
        {| db := d;
           trace :=
             (if Api.viperGetBool a "config.allow_registration" then []
              else [Failure StatusBadRequest
                      (Errorf EINVALID "USER_REGISTRATION_DISABLED")])
             ++ (Api.validateUserCookie a r).1 ++ [Failure StatusBadRequest e] |})).
Proof.
  split.
  - intros S a r d name email pwd1 pwd2 e active cerr t Hn He Hp1 Hp2 Hv Hc.
    unfold Legacy.handleUserRegistration, Legacy.readJSONRequestBody,
      Legacy.ValidateUserAccount. run_handler.
    destruct (Legacy.viperGetBool a "config.allow_registration"); unfold ret; simpl;
      rewrite Hc; simpl; rewrite Hn; simpl; rewrite He; simpl; rewrite Hp1; simpl;
      rewrite Hp2; simpl; rewrite Hv; simpl;
      rewrite ?app_nil_r, <- ?app_assoc; reflexivity.
  - intros S a dec r d body u e Hb Hj Hv.
    unfold Api.handleUserRegistration. run_handler. rewrite Hb.
    destruct (Api.viperGetBool a "config.allow_registration"); unfold ret; simpl;
      rewrite Hj; simpl;
      destruct (Api.validateUserAccountWithPasswords a _ _ _ _) as [[[n m] p] err];
      simpl in Hv; subst err; simpl;
      rewrite ?app_nil_r, <- ?app_assoc; reflexivity.
Qed.

Lemma registration_invalid_account_before_database_witness :
  serve (Legacy.handleUserRegistration FixturesRest.strictApi
           (FixturesRest.withCookie "any")) Fixtures.users
  = (Returned,
     {| db := Fixtures.users;
        trace := [respondWithStandardJSON StatusBadRequest false ["weak password"] DNil]
     |}).
Proof.
  destruct registration_invalid_account_before_database as [Hlegacy _].
  apply (Hlegacy _ FixturesRest.strictApi (FixturesRest.withCookie "any")
           Fixtures.users "Eve" "eve@example.org" "secret1" "secret1" "weak password"
           "" None []);
    reflexivity.
Defined.

(** ** Profiles *)

(** X9. Which update handleUserProfileUpdate runs is decided by the session:
    [UpdateUserAccount], the only one that takes an e-mail, runs for an
    admin session only; [UpdateUserProfile] runs for other sessions with
    LDAP disabled and [UpdateUserProfileLdap] with LDAP enabled. *)
Theorem handleUserProfileUpdate_update_by_role {S} (a : Api.api S)
    {decProfile : JSONUnmarshal Api.userprofileUpdateRequestBody}
    (r : Request) (d : S) :
  (Db OpUpdateUserAccount ∈ trace (serve (Api.handleUserProfileUpdate a r) d).2 →
   CtxUserType r = Some (Api.adminUserType a))
  ∧ (Db OpUpdateUserProfile ∈ trace (serve (Api.handleUserProfileUpdate a r) d).2 →
     ∃ ty, CtxUserType r = Some ty ∧ ty ≠ Api.adminUserType a
           ∧ Api.LdapEnabled a = false)
  ∧ (Db OpUpdateUserProfileLdap ∈ trace (serve (Api.handleUserProfileUpdate a r) d).2 →
     ∃ ty, CtxUserType r = Some ty ∧ ty ≠ Api.adminUserType a
           ∧ Api.LdapEnabled a = true).
Proof.
  unfold Api.handleUserProfileUpdate. run_handler.
  destruct (CtxUserType r) as [ty|]; simpl;
    [| repeat split; intros H; no_member H].
  destruct (Body r) as [body | bodyErr]; simpl;
    [| repeat split; intros H; no_member H].
  destruct (Unmarshal body) as [profile | jsonErr]; simpl;
    [| repeat split; intros H; no_member H].
  destruct (String.eqb_spec ty (Api.adminUserType a)) as [-> | Hne]; simpl.
  - destruct (Api.validateUserAccount a _ _) as [vErr|]; simpl;
      [repeat split; intros H; no_member H |].
    destruct (Api.UpdateUserAccount _ _ _ _ _ _ _ _ _ _ d) as [[err|] d1]; simpl;
      [repeat split; try done; intros H; no_member H |].
    destruct (Api.GetUser _ _ d1) as [[user [err|]] d2]; simpl;
      repeat split; try done; intros H; no_member H.
  - destruct (Api.LdapEnabled a); simpl.
    + destruct (Api.UpdateUserProfileLdap _ _ _ _ _ _ _ _ d) as [[err|] d1]; simpl;
        [repeat split; try (intros H; no_member H); eauto |].
      destruct (Api.GetUser _ _ d1) as [[user [err|]] d2]; simpl;
        repeat split; try (intros H; no_member H); eauto.
    + destruct (String.eqb (Api.pName profile) ""); simpl;
        [repeat split; intros H; no_member H |].
      destruct (Api.UpdateUserProfile _ _ _ _ _ _ _ _ _ d) as [[err|] d1]; simpl;
        [repeat split; try (intros H; no_member H); eauto |].
      destruct (Api.GetUser _ _ d1) as [[user [err|]] d2]; simpl;
        repeat split; try (intros H; no_member H); eauto.
Qed.

Lemma handleUserProfileUpdate_update_by_role_witness :
  Db OpUpdateUserAccount
  ∈ trace (serve (Api.handleUserProfileUpdate (decProfile := FixturesRest.decNamedProfile)
                    (Fixtures.api true) (Fixtures.request "Ada L." "u1" "u2" "ADMIN"))
             Fixtures.users).2
  ∧ CtxUserType (Fixtures.request "Ada L." "u1" "u2" "ADMIN")
    = Some (Api.adminUserType (Fixtures.api true)).
Proof.
  assert (Db OpUpdateUserAccount
          ∈ trace (serve (Api.handleUserProfileUpdate
                            (decProfile := FixturesRest.decNamedProfile)
                            (Fixtures.api true)
                            (Fixtures.request "Ada L." "u1" "u2" "ADMIN"))
                     Fixtures.users).2) as Hin.
  { vm_compute. by repeat constructor. }
  split; [exact Hin |].
  by apply (handleUserProfileUpdate_update_by_role
              (decProfile := FixturesRest.decNamedProfile) (Fixtures.api true)
              (Fixtures.request "Ada L." "u1" "u2" "ADMIN") Fixtures.users).
Defined.

(** X10. The profile that handleUserProfileUpdate answers with is the one read
    back after the update: a success carries the user that [GetUser]
    returns on the database the update left, and that database, as
    [GetUser] leaves it, is the final one. *)
Theorem handleUserProfileUpdate_answers_stored_profile {S} (a : Api.api S)
    {decProfile : JSONUnmarshal Api.userprofileUpdateRequestBody}
    (r : Request) (d : S) (ty body : string) (p : Api.userprofileUpdateRequestBody)
    (data : Data) :
  CtxUserType r = Some ty →
  Body r = inl body →
  Unmarshal body = inl p →
  Success StatusOK data ∈ trace (serve (Api.handleUserProfileUpdate a r) d).2 →
  ∃ (d1 d2 : S) (user : option User),
    (if String.eqb ty (Api.adminUserType a)
     then Api.UpdateUserAccount (Api.database a) (Api.pathVar r "userId")
            (Api.pName p) (Api.pEmail p) (Api.pAvatar p) (Api.pNotificationsEnabled p)
            (Api.pCountry p) (Api.pLocale p) (Api.pCompany p) (Api.pJobTitle p) d
     else if Api.LdapEnabled a
     then Api.UpdateUserProfileLdap (Api.database a) (Api.pathVar r "userId")
            (Api.pAvatar p) (Api.pNotificationsEnabled p)
            (Api.pCountry p) (Api.pLocale p) (Api.pCompany p) (Api.pJobTitle p) d
     else Api.UpdateUserProfile (Api.database a) (Api.pathVar r "userId")
            (Api.pName p) (Api.pAvatar p) (Api.pNotificationsEnabled p)
            (Api.pCountry p) (Api.pLocale p) (Api.pCompany p) (Api.pJobTitle p) d)
    = (None, d1)
    ∧ Api.GetUser (Api.database a) (Api.pathVar r "userId") d1 = ((user, None), d2)
    ∧ data = Api.userData user
    ∧ db (serve (Api.handleUserProfileUpdate a r) d).2 = d2.
Proof.
  intros Hty Hb Hj. unfold Api.handleUserProfileUpdate. run_handler.
  rewrite Hty. simpl. rewrite Hb. simpl. rewrite Hj. simpl.
  destruct (String.eqb ty (Api.adminUserType a)); simpl.
  - destruct (Api.validateUserAccount a _ _) as [vErr|]; simpl;
      [intros H; no_member H |].
    destruct (Api.UpdateUserAccount _ _ _ _ _ _ _ _ _ _ d) as [[err|] d1]; simpl;
      [intros H; no_member H |].
    destruct (Api.GetUser _ _ d1) as [[user [err|]] d2] eqn:Hget; simpl;
      [intros H; no_member H |].
    intros H. apply elem_of_cons in H as [H | H]; [discriminate H |].
    apply elem_of_cons in H as [H | H]; [discriminate H |].
    apply list_elem_of_singleton in H. simplify_eq. by exists d1, d2, user.
  - destruct (Api.LdapEnabled a); simpl.
    + destruct (Api.UpdateUserProfileLdap _ _ _ _ _ _ _ _ d) as [[err|] d1]; simpl;
        [intros H; no_member H |].
      destruct (Api.GetUser _ _ d1) as [[user [err|]] d2] eqn:Hget; simpl;
        [intros H; no_member H |].
      intros H. apply elem_of_cons in H as [H | H]; [discriminate H |].
      apply elem_of_cons in H as [H | H]; [discriminate H |].
      apply list_elem_of_singleton in H. simplify_eq. by exists d1, d2, user.
    + destruct (String.eqb (Api.pName p) ""); simpl; [intros H; no_member H |].
      destruct (Api.UpdateUserProfile _ _ _ _ _ _ _ _ _ d) as [[err|] d1]; simpl;
        [intros H; no_member H |].
      destruct (Api.GetUser _ _ d1) as [[user [err|]] d2] eqn:Hget; simpl;
        [intros H; no_member H |].
      intros H. apply elem_of_cons in H as [H | H]; [discriminate H |].
      apply elem_of_cons in H as [H | H]; [discriminate H |].
      apply list_elem_of_singleton in H. simplify_eq. by exists d1, d2, user.
Qed.

Lemma handleUserProfileUpdate_answers_stored_profile_witness :
  ∃ (d1 d2 : Fixtures.DB) (user : option User),
    Api.GetUser (Api.database (Fixtures.api true)) "u1" d1 = ((user, None), d2)
    ∧ DUser (mkUser "u1" "Ada L." "ada@example.org") = Api.userData user
    ∧ db (serve (Api.handleUserProfileUpdate (decProfile := FixturesRest.decNamedProfile)
                   (Fixtures.api true) (Fixtures.request "Ada L." "u1" "u1" "USER"))
            Fixtures.users).2 = d2.
Proof.
  destruct (handleUserProfileUpdate_answers_stored_profile
              (decProfile := FixturesRest.decNamedProfile) (Fixtures.api true)
              (Fixtures.request "Ada L." "u1" "u1" "USER") Fixtures.users
              "USER" "Ada L."
              (Api.mkProfile "Ada L." "" false "" "" "" "" "ada@example.net")
              (DUser (mkUser "u1" "Ada L." "ada@example.org"))
              eq_refl eq_refl eq_refl)
    as (d1 & d2 & user & _ & Hget & Hdata & Hdb).
  - vm_compute. by repeat constructor.
  - by exists d1, d2, user.
Defined.

(** X11. handleUserDelete mails the confirmation and clears cookies only on
    the way to its success; it calls [DeleteUser] only after [GetUser]
    returned no error; and every failure it writes has status 500. *)
Theorem handleUserDelete_effects_need_success {S} (a : Api.api S)
    (r : Request) (d : S) :
  (∀ name email,
     SendDeleteConfirmation name email ∈ trace (serve (Api.handleUserDelete a r) d).2 →
     Success StatusOK DNil ∈ trace (serve (Api.handleUserDelete a r) d).2)
  ∧ (ClearUserCookies ∈ trace (serve (Api.handleUserDelete a r) d).2 →
     Success StatusOK DNil ∈ trace (serve (Api.handleUserDelete a r) d).2)
  ∧ (Db OpDeleteUser ∈ trace (serve (Api.handleUserDelete a r) d).2 →
     (Api.GetUser (Api.database a) (Api.pathVar r "userId") d).1.2 = None)
  ∧ (∀ status e,
       Failure status e ∈ trace (serve (Api.handleUserDelete a r) d).2 →
       status = StatusInternalServerError
       ∧ Success StatusOK DNil ∉ trace (serve (Api.handleUserDelete a r) d).2).
Proof.
  unfold Api.handleUserDelete, Api.clearUserCookies. run_handler.
  destruct (CtxUserID r) as [cid|]; simpl.
  2: { split; [intros ? ? H; no_member H |].
       split; [intros H; no_member H |].
       split; [intros H; no_member H | intros ? ? H; no_member H]. }
  destruct (Api.GetUser _ _ d) as [[user [e|]] d1]; simpl.
  { split; [intros ? ? H; no_member H |].
    split; [intros H; no_member H |].
    split; [intros H; no_member H |].
    intros status e' H.
    apply elem_of_cons in H as [H | H]; [discriminate H |].
    apply list_elem_of_singleton in H. simplify_eq.
    split; [done | intros H'; no_member H']. }
  destruct (Api.DeleteUser _ _ d1) as [[e|] d2]; simpl.
  { split; [intros ? ? H; no_member H |].
    split; [intros H; no_member H |].
    split; [done |].
    intros status e' H.
    do 2 (apply elem_of_cons in H as [H | H]; [discriminate H |]).
    apply list_elem_of_singleton in H. simplify_eq.
    split; [done | intros H'; no_member H']. }
  destruct user as [u|]; simpl.
  2: { split; [intros ? ? H; no_member H |].
       split; [intros H; no_member H |].
       split; [done | intros ? ? H; no_member H]. }
  destruct (String.eqb (Api.pathVar r "userId") cid); simpl.
  - split; [intros; by repeat constructor |].
    split; [intros; by repeat constructor |].
    split; [done | intros ? ? H; no_member H].
  - split; [intros; by repeat constructor |].
    split; [intros H; no_member H |].
    split; [done | intros ? ? H; no_member H].
Qed.

Lemma handleUserDelete_effects_need_success_witness :
  Db OpDeleteUser
  ∈ trace (serve (Api.handleUserDelete (Fixtures.api true)
                    (Fixtures.request "{}" "u2" "u1" "ADMIN")) Fixtures.users).2
  ∧ (Api.GetUser (Api.database (Fixtures.api true))
       (Api.pathVar (Fixtures.request "{}" "u2" "u1" "ADMIN") "userId")
       Fixtures.users).1.2 = None.
Proof.
  assert (Db OpDeleteUser
          ∈ trace (serve (Api.handleUserDelete (Fixtures.api true)
                            (Fixtures.request "{}" "u2" "u1" "ADMIN"))
                     Fixtures.users).2) as Hin.
  { vm_compute. by repeat constructor. }
  split; [exact Hin |].
  by apply (handleUserDelete_effects_need_success (Fixtures.api true)
              (Fixtures.request "{}" "u2" "u1" "ADMIN") Fixtures.users).
Defined.

(** X12. handleSessionUserProfile is handleUserProfile for the session's user:
    with a user id in the request context equal to the path variable the
    two serve a request alike; without one the session handler panics
    before it reaches the database, where handleUserProfile always returns
    with one reply and reads nothing but the path variable. *)
Theorem session_profile_is_profile_of_session_user {S} (a : Api.api S)
    (r : Request) (d : S) :
  (∀ id, CtxUserID r = Some id → Api.pathVar r "userId" = id →
     serve (ApiRest.handleSessionUserProfile a r) d
     = serve (ApiRest.handleUserProfile a r) d)
  ∧ (CtxUserID r = None →
     serve (ApiRest.handleSessionUserProfile a r) d
     = (Panicked, {| db := d; trace := [] |}))
  ∧ (serve (ApiRest.handleUserProfile a r) d).1 = Returned
  ∧ length (replies (trace (serve (ApiRest.handleUserProfile a r) d).2)) = 1%nat
  ∧ (∀ r', Vars r' = Vars r →
       serve (ApiRest.handleUserProfile a r') d
       = serve (ApiRest.handleUserProfile a r) d).
Proof.
  unfold ApiRest.handleSessionUserProfile, ApiRest.handleUserProfile, Api.pathVar.
  split; [| split; [| split; [| split]]].
  - intros id Hid Hvar. rewrite Hid, Hvar. run_handler.
    by destruct (Api.GetUser _ _ d) as [[user [e|]] d1].
  - intros Hid. rewrite Hid. reflexivity.
  - run_handler.
    by destruct (Api.GetUser _ _ d) as [[user [e|]] d1].
  - run_handler.
    by destruct (Api.GetUser _ _ d) as [[user [e|]] d1].
  - intros r' Hvars. by rewrite Hvars.
Qed.

Lemma session_profile_is_profile_of_session_user_witness :
  serve (ApiRest.handleSessionUserProfile (Fixtures.api true)
           (Fixtures.request "{}" "u1" "u1" "USER")) Fixtures.users
  = serve (ApiRest.handleUserProfile (Fixtures.api true)
             (Fixtures.request "{}" "u1" "u1" "USER")) Fixtures.users
  ∧ serve (ApiRest.handleSessionUserProfile (Fixtures.api true)
             (FixturesRest.withCookie "u1")) Fixtures.users
    = (Panicked, {| db := Fixtures.users; trace := [] |}).
Proof.
  split.
  - by apply (session_profile_is_profile_of_session_user (Fixtures.api true)
                (Fixtures.request "{}" "u1" "u1" "USER") Fixtures.users) with "u1".
  - by apply (session_profile_is_profile_of_session_user (Fixtures.api true)
                (FixturesRest.withCookie "u1") Fixtures.users).
Defined.

(** ** Guests *)

(** X13. The guest guard returns, in both implementations: with guests not
    allowed the request is answered by the one bad request, the body is
    not read and the database neither called nor changed. *)
Theorem guest_guard_returns {S} (la : Legacy.api S) (lx : LegacyRest.more S)
    (a : Api.api S) (x : ApiRest.more S)
    {decGuest : JSONUnmarshal ApiRest.guestUserCreateRequestBody}
    (r : Request) (d : S) :
  (Legacy.viperGetBool la "config.allow_guests" = false →
   serve (LegacyRest.handleCreateGuestUser la lx r) d
   = (Returned, {| db := d;
                   trace := [respondWithStandardJSON StatusBadRequest false [] DNil] |}))
  ∧ (Api.viperGetBool a "config.allow_guests" = false →
     serveAll (ApiRest.handleCreateGuestUser a x r) d
     = (Returned,
        (d, [Base (Failure StatusBadRequest (Errorf EINVALID "GUESTS_USERS_DISABLED"))]))).
Proof.
  split; intros Hoff.
  - unfold LegacyRest.handleCreateGuestUser. rewrite Hoff. reflexivity.
  - unfold ApiRest.handleCreateGuestUser. rewrite Hoff. reflexivity.
Qed.

Lemma guest_guard_returns_witness :
  serve (LegacyRest.handleCreateGuestUser (Fixtures.legacyApi false)
           FixturesRest.legacyMore (Fixtures.request "Gus" "" "" "")) Fixtures.users
  = (Returned, {| db := Fixtures.users;
                  trace := [respondWithStandardJSON StatusBadRequest false [] DNil] |})
  ∧ serveAll (ApiRest.handleCreateGuestUser (Fixtures.api false) FixturesRest.more
                (Fixtures.request "Gus" "" "" "")) Fixtures.users
    = (Returned,
       (Fixtures.users,
        [Base (Failure StatusBadRequest (Errorf EINVALID "GUESTS_USERS_DISABLED"))])).
Proof.
  split.
  - by apply (guest_guard_returns (Fixtures.legacyApi false) FixturesRest.legacyMore
                (Fixtures.api false) FixturesRest.more
                (Fixtures.request "Gus" "" "" "") Fixtures.users).
  - by apply (guest_guard_returns (Fixtures.legacyApi false) FixturesRest.legacyMore
                (Fixtures.api false) FixturesRest.more
                (Fixtures.request "Gus" "" "" "") Fixtures.users).
Defined.

(** X14. The newer handleCreateGuestUser succeeds only with the user that
    [CreateUserGuest] created for the decoded name, after a cookie was
    made for that user's id without error; the success has status 200. *)
Theorem handleCreateGuestUser_success {S} (a : Api.api S) (x : ApiRest.more S)
    {decGuest : JSONUnmarshal ApiRest.guestUserCreateRequestBody}
    (r : Request) (d : S) (status : Z) (data : Data) :
  Base (Success status data) ∈ (serveAll (ApiRest.handleCreateGuestUser a x r) d).2.2 →
  ∃ (body : string) (u : ApiRest.guestUserCreateRequestBody) (nu : User) (d' : S),
    Api.viperGetBool a "config.allow_guests" = true
    ∧ Body r = inl body ∧ Unmarshal body = inl u
    ∧ ApiRest.CreateUserGuest x (ApiRest.gName u) d = ((Some nu, None), d')
    ∧ ApiRest.userCookieErr x (Id nu) = None
    ∧ status = StatusOK ∧ data = DUser nu
    ∧ serveAll (ApiRest.handleCreateGuestUser a x r) d
      = (Returned, (d', [Base (Db OpCreateUserGuest); CreateUserCookie (Id nu);
                         Base (Success StatusOK (DUser nu))])).
Proof.
  unfold ApiRest.handleCreateGuestUser. run_actions.
  destruct (Api.viperGetBool a _); simpl; [| intros H; no_member H].
  destruct (Body r) as [body|bodyErr]; simpl; [| intros H; no_member H].
  destruct (Unmarshal body) as [u|jsonErr] eqn:Hu; simpl; [| intros H; no_member H].
  destruct (ApiRest.CreateUserGuest x _ d) as [[newUser [e|]] d'] eqn:Hc; simpl;
    [intros H; no_member H |].
  destruct newUser as [nu|]; simpl; [| intros H; no_member H].
  destruct (ApiRest.userCookieErr x (Id nu)) eqn:Hk; simpl; [intros H; no_member H |].
  intros H. do 2 (apply elem_of_cons in H as [H | H]; [discriminate H |]).
  apply list_elem_of_singleton in H. simplify_eq.
  by exists body, u, nu, d'.
Qed.

Lemma handleCreateGuestUser_success_witness :
  ∃ (nu : User) (d' : Fixtures.DB),
    ApiRest.CreateUserGuest FixturesRest.more "Gus" Fixtures.users = ((Some nu, None), d')
    ∧ serveAll (ApiRest.handleCreateGuestUser (Fixtures.api true) FixturesRest.more
                  (Fixtures.request "Gus" "" "" "")) Fixtures.users
      = (Returned, (d', [Base (Db OpCreateUserGuest); CreateUserCookie (Id nu);
                         Base (Success StatusOK (DUser nu))])).
Proof.
  destruct (handleCreateGuestUser_success (Fixtures.api true) FixturesRest.more
              (Fixtures.request "Gus" "" "" "") Fixtures.users StatusOK
              (DUser (mkUser "guest:Gus" "Gus" "")))
    as (body & u & nu & d' & _ & Hb & Hu & Hc & _ & _ & _ & Hrun).
  - vm_compute. by repeat constructor.
  - simpl in Hb. injection Hb as <-. vm_compute in Hu. injection Hu as <-.
    by exists nu, d'.
Defined.

(** X15. When the cookie cannot be made the two implementations part: the
    older handleCreateGuestUser writes status 500 and still answers with
    the 200 success; the newer one answers with the INVALID_COOKIE failure
    and no success. In both the guest stays created. *)
Theorem guest_cookie_failure {S} (la : Legacy.api S) (lx : LegacyRest.more S)
    (a : Api.api S) (x : ApiRest.more S)
    {decGuest : JSONUnmarshal ApiRest.guestUserCreateRequestBody}
    (r : Request) (d d' : S) (name body e : string) (u : User)
    (g : ApiRest.guestUserCreateRequestBody) (ce : Error) :
  (Legacy.viperGetBool la "config.allow_guests" = true →
   assertString ((Legacy.getJSONRequestBody la r).2 !! "warriorName") = Some name →
   LegacyRest.CreateUserGuest lx name d = ((Some u, None), d') →
   Legacy.cookieEncode la (Legacy.SecureCookieName (Legacy.config la)) (Id u) = inr e →
   serve (LegacyRest.handleCreateGuestUser la lx r) d
   = (Returned,
      {| db := d';
         trace := (Legacy.getJSONRequestBody la r).1
                  ++ [Db OpCreateUserGuest; WriteHeader StatusInternalServerError;
                      respondWithStandardJSON StatusOK true [] (DUser u)] |}))
  ∧ (Api.viperGetBool a "config.allow_guests" = true →
     Body r = inl body → Unmarshal body = inl g →
     ApiRest.CreateUserGuest x (ApiRest.gName g) d = ((Some u, None), d') →
     ApiRest.userCookieErr x (Id u) = Some ce →
     serveAll (ApiRest.handleCreateGuestUser a x r) d
     = (Returned,
        (d', [Base (Db OpCreateUserGuest); CreateUserCookie (Id u);
              Base (Failure StatusInternalServerError (Errorf EINVALID "INVALID_COOKIE"))]))).
Proof.
  split.
  - intros Hon Hname Hc He.
    unfold LegacyRest.handleCreateGuestUser, Legacy.readJSONRequestBody,
      Legacy.createUserCookie.
    rewrite Hon. run_handler. rewrite Hname. simpl. rewrite Hc. simpl.
    rewrite He. simpl. by rewrite ?app_nil_r.
  - intros Hon Hb Hg Hc Hk.
    unfold ApiRest.handleCreateGuestUser. rewrite Hon. run_actions.
    rewrite Hb. simpl. rewrite Hg. simpl. rewrite Hc. simpl. rewrite Hk. reflexivity.
Qed.

Lemma guest_cookie_failure_witness :
  serve (LegacyRest.handleCreateGuestUser FixturesRest.brokenCookieApi
           FixturesRest.legacyMore (Fixtures.request "gus@example.org" "" "" ""))
    Fixtures.users
  = (Returned,
     {| db := (Fixtures.users ++ [mkUser "guest:Eve" "Eve" ""])%list;
        trace := [Db OpCreateUserGuest; WriteHeader StatusInternalServerError;
                  respondWithStandardJSON StatusOK true []
                    (DUser (mkUser "guest:Eve" "Eve" ""))] |})
  ∧ serveAll (ApiRest.handleCreateGuestUser (Fixtures.api true)
                FixturesRest.brokenCookieMore (Fixtures.request "Gus" "" "" ""))
      Fixtures.users
    = (Returned,
       ((Fixtures.users ++ [mkUser "guest:Gus" "Gus" ""])%list,
        [Base (Db OpCreateUserGuest); CreateUserCookie "guest:Gus";
         Base (Failure StatusInternalServerError (Errorf EINVALID "INVALID_COOKIE"))])).
Proof.
  split.
  - apply (guest_cookie_failure FixturesRest.brokenCookieApi FixturesRest.legacyMore
             (Fixtures.api true) FixturesRest.brokenCookieMore
             (Fixtures.request "gus@example.org" "" "" "") Fixtures.users
             (Fixtures.users ++ [mkUser "guest:Eve" "Eve" ""])%list
             "Eve" "Gus" "securecookie: hash key is not set"
             (mkUser "guest:Eve" "Eve" "") (ApiRest.mkGuest "Gus")
             (Errorf EINVALID "securecookie: hash key is not set"));
      reflexivity.
  - apply (guest_cookie_failure FixturesRest.brokenCookieApi FixturesRest.legacyMore
             (Fixtures.api true) FixturesRest.brokenCookieMore
             (Fixtures.request "Gus" "" "" "") Fixtures.users
             (Fixtures.users ++ [mkUser "guest:Gus" "Gus" ""])%list
             "Eve" "Gus" "securecookie: hash key is not set"
             (mkUser "guest:Gus" "Gus" "") (ApiRest.mkGuest "Gus")
             (Errorf EINVALID "securecookie: hash key is not set"));
      reflexivity.
Defined.

(** ** Passwords *)

(** X16. The newer password handlers mail only after the database changed the
    password: a reset or update mail among the actions means the body
    decoded, the passwords validated, and [UserResetPassword] or
    [UserUpdatePassword] returned without error the name and address the
    mail goes to; the run is then the database call, the mail and the
    success. *)
Theorem password_mail_after_database {S} (x : ApiRest.more S)
    {decReset : JSONUnmarshal ApiRest.resetPasswordRequestBody}
    {decUpdate : JSONUnmarshal ApiRest.updatePasswordRequestBody}
    (r : Request) (d : S) (name email : string) :
  (SendPasswordReset name email ∈ (serveAll (ApiRest.handleResetPassword x r) d).2.2 →
   ∃ (body : string) (u : ApiRest.resetPasswordRequestBody) (d' : S),
     Body r = inl body ∧ Unmarshal body = inl u
     ∧ (ApiRest.validateUserPassword x (ApiRest.sPassword1 u) (ApiRest.sPassword2 u)).2 = None
     ∧ ApiRest.UserResetPassword x (ApiRest.sResetID u)
         (ApiRest.validateUserPassword x (ApiRest.sPassword1 u) (ApiRest.sPassword2 u)).1 d
       = ((name, email, None), d')
     ∧ serveAll (ApiRest.handleResetPassword x r) d
       = (Returned, (d', [DbMore OpUserResetPassword; SendPasswordReset name email;
                          Base (Success StatusOK DNil)])))
  ∧ (SendPasswordUpdate name email ∈ (serveAll (ApiRest.handleUpdatePassword x r) d).2.2 →
     ∃ (id body : string) (u : ApiRest.updatePasswordRequestBody) (d' : S),
       CtxUserID r = Some id ∧ Body r = inl body ∧ Unmarshal body = inl u
       ∧ (ApiRest.validateUserPassword x (ApiRest.uPassword1 u) (ApiRest.uPassword2 u)).2 = None
       ∧ ApiRest.UserUpdatePassword x id
           (ApiRest.validateUserPassword x (ApiRest.uPassword1 u) (ApiRest.uPassword2 u)).1 d
         = ((name, email, None), d')
       ∧ serveAll (ApiRest.handleUpdatePassword x r) d
         = (Returned, (d', [DbMore OpUserUpdatePassword; SendPasswordUpdate name email;
                            Base (Success StatusOK DNil)]))).
Proof.
  split.
  - unfold ApiRest.handleResetPassword. run_actions.
    destruct (Body r) as [body|bodyErr]; simpl; [| intros H; no_member H].
    destruct (Unmarshal body) as [u|jsonErr] eqn:Hu; simpl; [| intros H; no_member H].
    destruct (ApiRest.validateUserPassword x _ _) as [pwd [e|]] eqn:Hv; simpl;
      [intros H; no_member H |].
    destruct (ApiRest.UserResetPassword x _ _ d) as [[[n m] [e|]] d'] eqn:Hr; simpl;
      [intros H; no_member H |].
    intros H. apply elem_of_cons in H as [H | H]; [discriminate H |].
    apply elem_of_cons in H as [H | H]; [| no_member H].
    simplify_eq. exists body, u, d'. by rewrite Hv.
  - unfold ApiRest.handleUpdatePassword. run_actions.
    destruct (CtxUserID r) as [id|]; simpl; [| intros H; no_member H].
    destruct (Body r) as [body|bodyErr]; simpl; [| intros H; no_member H].
    destruct (Unmarshal body) as [u|jsonErr] eqn:Hu; simpl; [| intros H; no_member H].
    destruct (ApiRest.validateUserPassword x _ _) as [pwd [e|]] eqn:Hv; simpl;
      [intros H; no_member H |].
    destruct (ApiRest.UserUpdatePassword x _ _ d) as [[[n m] [e|]] d'] eqn:Hr; simpl;
      [intros H; no_member H |].
    intros H. apply elem_of_cons in H as [H | H]; [discriminate H |].
    apply elem_of_cons in H as [H | H]; [| no_member H].
    simplify_eq. exists id, body, u, d'. by rewrite Hv.
Qed.

Lemma password_mail_after_database_witness :
  ∃ d' : Fixtures.DB,
    serveAll (ApiRest.handleResetPassword FixturesRest.more
                (Fixtures.request "u1" "" "" "")) Fixtures.users
    = (Returned, (d', [DbMore OpUserResetPassword;
                       SendPasswordReset "Ada" "ada@example.org";
                       Base (Success StatusOK DNil)])).
Proof.
  destruct (password_mail_after_database FixturesRest.more
              (Fixtures.request "u1" "" "" "") Fixtures.users "Ada" "ada@example.org")
    as [Hreset _].
  destruct Hreset as (body & u & d' & _ & _ & _ & _ & Hrun).
  - vm_compute. by repeat constructor.
  - by exists d'.
Defined.

(** X17. A password that does not validate is rejected before the database:
    the newer handlers answer with the validator's error as the one
    action, the older ones write, after what the body helper wrote, a 400
    that carries no error text; no database method runs and the database
    is as before. *)
Theorem password_rejected_before_database {S} (la : Legacy.api S)
    (lx : LegacyRest.more S) (x : ApiRest.more S)
    {decReset : JSONUnmarshal ApiRest.resetPasswordRequestBody}
    {decUpdate : JSONUnmarshal ApiRest.updatePasswordRequestBody}
    (r : Request) (d : S) :
  (∀ body u e,
     Body r = inl body → Unmarshal body = inl u →
     (ApiRest.validateUserPassword x (ApiRest.sPassword1 u) (ApiRest.sPassword2 u)).2
     = Some e →
     serveAll (ApiRest.handleResetPassword x r) d
     = (Returned, (d, [Base (Failure StatusBadRequest e)])))
  ∧ (∀ id body u e,
       CtxUserID r = Some id → Body r = inl body → Unmarshal body = inl u →
       (ApiRest.validateUserPassword x (ApiRest.uPassword1 u) (ApiRest.uPassword2 u)).2
       = Some e →
       serveAll (ApiRest.handleUpdatePassword x r) d
       = (Returned, (d, [Base (Failure StatusBadRequest e)])))
  ∧ (∀ rid pwd1 pwd2 e,
       assertString ((Legacy.getJSONRequestBody la r).2 !! "resetId") = Some rid →
       assertString ((Legacy.getJSONRequestBody la r).2 !! "warriorPassword1") = Some pwd1 →
       assertString ((Legacy.getJSONRequestBody la r).2 !! "warriorPassword2") = Some pwd2 →
       LegacyRest.validatorStruct lx (LegacyRest.mkUserPassword pwd1 pwd2) = Some e →
       serveAll (LegacyRest.handleResetPassword la lx r) d
       = (Returned,
          (d, (Base <$> (Legacy.getJSONRequestBody la r).1)
              ++ [Base (respondWithStandardJSON StatusBadRequest false [] DNil)])%list))
  ∧ (∀ id pwd1 pwd2 e,
       CtxUserID r = Some id →
       assertString ((Legacy.getJSONRequestBody la r).2 !! "warriorPassword1") = Some pwd1 →
       assertString ((Legacy.getJSONRequestBody la r).2 !! "warriorPassword2") = Some pwd2 →
       LegacyRest.validatorStruct lx (LegacyRest.mkUserPassword pwd1 pwd2) = Some e →
       serveAll (LegacyRest.handleUpdatePassword la lx r) d
       = (Returned,
          (d, (Base <$> (Legacy.getJSONRequestBody la r).1)
              ++ [Base (respondWithStandardJSON StatusBadRequest false [] DNil)])%list)).
Proof.
  split; [| split; [| split]].
  - intros body u e Hb Hu Hv. unfold ApiRest.handleResetPassword. run_actions.
    rewrite Hb. simpl. rewrite Hu. simpl.
    destruct (ApiRest.validateUserPassword x _ _) as [pwd err]. simpl in Hv.
    subst err. reflexivity.
  - intros id body u e Hid Hb Hu Hv. unfold ApiRest.handleUpdatePassword. run_actions.
    rewrite Hid. simpl. rewrite Hb. simpl. rewrite Hu. simpl.
    destruct (ApiRest.validateUserPassword x _ _) as [pwd err]. simpl in Hv.
    subst err. reflexivity.
  - intros rid pwd1 pwd2 e Hrid H1 H2 Hv.
    unfold LegacyRest.handleResetPassword, LegacyRest.ValidateUserPassword,
      Legacy.readJSONRequestBody. run_actions.
    rewrite Hrid. simpl. rewrite H1. simpl. rewrite H2. simpl. rewrite Hv. simpl.
    by rewrite ?app_nil_r.
  - intros id pwd1 pwd2 e Hid H1 H2 Hv.
    unfold LegacyRest.handleUpdatePassword, LegacyRest.ValidateUserPassword,
      Legacy.readJSONRequestBody. run_actions.
    rewrite Hid. simpl. rewrite H1. simpl. rewrite H2. simpl. rewrite Hv. simpl.
    by rewrite ?app_nil_r.
Qed.

Lemma password_rejected_before_database_witness :
  serveAll (LegacyRest.handleResetPassword FixturesRest.restApi FixturesRest.legacyMore
              (Fixtures.request "mismatch" "" "" "")) Fixtures.users
  = (Returned,
     (Fixtures.users,
      [Base (respondWithStandardJSON StatusBadRequest false [] DNil)])).
Proof.
  destruct (password_rejected_before_database FixturesRest.restApi
              FixturesRest.legacyMore FixturesRest.more
              (Fixtures.request "mismatch" "" "" "") Fixtures.users)
    as (_ & _ & Hreset & _).
  apply Hreset with "mismatch" "secret1" "other" "Password2 must equal Password1";
    reflexivity.
Defined.

(** An action that is no base call is not among the base calls. *)
Lemma not_among_base (l : list Call) (a : Action) :
  a ∈ Base <$> l → (∀ c, a ≠ Base c) → False.
Proof.
  intros H Hn. apply list_elem_of_fmap in H as (c & -> & _). by apply (Hn c).
Qed.

(** X18. The older password handlers mail only after the database changed the
    password: a reset or update mail among the actions means every key was
    a string, the validator accepted the pair of passwords, and
    [UserResetPassword] or [UserUpdatePassword] returned without error the
    name and address the mail goes to. The password stored is the first of
    the pair. *)
Theorem legacy_password_mail_after_database {S} (a : Legacy.api S)
    (x : LegacyRest.more S) (r : Request) (d : S) (name email : string) :
  (SendPasswordReset name email ∈ (serveAll (LegacyRest.handleResetPassword a x r) d).2.2 →
   ∃ (rid pwd1 pwd2 : string) (d' : S),
     assertString ((Legacy.getJSONRequestBody a r).2 !! "resetId") = Some rid
     ∧ assertString ((Legacy.getJSONRequestBody a r).2 !! "warriorPassword1") = Some pwd1
     ∧ assertString ((Legacy.getJSONRequestBody a r).2 !! "warriorPassword2") = Some pwd2
     ∧ LegacyRest.validatorStruct x (LegacyRest.mkUserPassword pwd1 pwd2) = None
     ∧ LegacyRest.UserResetPassword x rid pwd1 d = ((name, email, None), d')
     ∧ (serveAll (LegacyRest.handleResetPassword a x r) d).2.1 = d')
  ∧ (SendPasswordUpdate name email ∈ (serveAll (LegacyRest.handleUpdatePassword a x r) d).2.2 →
     ∃ (id pwd1 pwd2 : string) (d' : S),
       CtxUserID r = Some id
       ∧ assertString ((Legacy.getJSONRequestBody a r).2 !! "warriorPassword1") = Some pwd1
       ∧ assertString ((Legacy.getJSONRequestBody a r).2 !! "warriorPassword2") = Some pwd2
       ∧ LegacyRest.validatorStruct x (LegacyRest.mkUserPassword pwd1 pwd2) = None
       ∧ LegacyRest.UserUpdatePassword x id pwd1 d = ((name, email, None), d')
       ∧ (serveAll (LegacyRest.handleUpdatePassword a x r) d).2.1 = d').
Proof.
  split.
  - unfold LegacyRest.handleResetPassword, LegacyRest.ValidateUserPassword,
      Legacy.readJSONRequestBody. run_actions.
    destruct (assertString (_ !! "resetId")) as [rid|]; simpl.
    2: { rewrite ?app_nil_r. intros H. by apply not_among_base in H. }
    destruct (assertString (_ !! "warriorPassword1")) as [pwd1|]; simpl.
    2: { rewrite ?app_nil_r. intros H. by apply not_among_base in H. }
    destruct (assertString (_ !! "warriorPassword2")) as [pwd2|]; simpl.
    2: { rewrite ?app_nil_r. intros H. by apply not_among_base in H. }
    destruct (LegacyRest.validatorStruct x _) as [e|] eqn:Hv; simpl.
    { rewrite ?app_nil_r. intros H. apply elem_of_app in H as [H | H];
        [by apply not_among_base in H | no_member H]. }
    destruct (LegacyRest.UserResetPassword x _ _ d) as [[[n m] [e|]] d'] eqn:Hr; simpl.
    { rewrite ?app_nil_r, <- ?app_assoc. intros H.
      apply elem_of_app in H as [H | H];
        [by apply not_among_base in H | no_member H]. }
    rewrite ?app_nil_r, <- ?app_assoc. intros H.
    apply elem_of_app in H as [H | H]; [by apply not_among_base in H |].
    apply elem_of_cons in H as [H | H]; [discriminate H |].
    apply elem_of_cons in H as [H | H]; [| no_member H].
    simplify_eq. by exists rid, pwd1, pwd2, d'.
  - unfold LegacyRest.handleUpdatePassword, LegacyRest.ValidateUserPassword,
      Legacy.readJSONRequestBody. run_actions.
    destruct (CtxUserID r) as [id|]; simpl.
    2: { rewrite ?app_nil_r. intros H. by apply not_among_base in H. }
    destruct (assertString (_ !! "warriorPassword1")) as [pwd1|]; simpl.
    2: { rewrite ?app_nil_r. intros H. by apply not_among_base in H. }
    destruct (assertString (_ !! "warriorPassword2")) as [pwd2|]; simpl.
    2: { rewrite ?app_nil_r. intros H. by apply not_among_base in H. }
    destruct (LegacyRest.validatorStruct x _) as [e|] eqn:Hv; simpl.
    { rewrite ?app_nil_r. intros H. apply elem_of_app in H as [H | H];
        [by apply not_among_base in H | no_member H]. }
    destruct (LegacyRest.UserUpdatePassword x _ _ d) as [[[n m] [e|]] d'] eqn:Hr; simpl.
    { rewrite ?app_nil_r, <- ?app_assoc. intros H.
      apply elem_of_app in H as [H | H];
        [by apply not_among_base in H | no_member H]. }
    rewrite ?app_nil_r, <- ?app_assoc. intros H.
    apply elem_of_app in H as [H | H]; [by apply not_among_base in H |].
    apply elem_of_cons in H as [H | H]; [discriminate H |].
    apply elem_of_cons in H as [H | H]; [| no_member H].
    simplify_eq. by exists id, pwd1, pwd2, d'.
Qed.

Lemma legacy_password_mail_after_database_witness :
  ∃ (rid pwd1 pwd2 : string) (d' : Fixtures.DB),
    LegacyRest.UserResetPassword FixturesRest.legacyMore rid pwd1 Fixtures.users
    = (("Bob", "bob@example.org", None), d')
    ∧ LegacyRest.validatorStruct FixturesRest.legacyMore
        (LegacyRest.mkUserPassword pwd1 pwd2) = None.
Proof.
  destruct (legacy_password_mail_after_database FixturesRest.restApi
              FixturesRest.legacyMore (Fixtures.request "u2" "" "" "")
              Fixtures.users "Bob" "bob@example.org") as [Hreset _].
  destruct Hreset as (rid & pwd1 & pwd2 & d' & _ & _ & _ & Hv & Hr & _).
  - vm_compute. by repeat constructor.
  - by exists rid, pwd1, pwd2, d'.
Defined.

(** X19. The two handleUpdatePassword read the session's user id at different
    points: without one in the request context the newer handler panics
    before anything else, the older one after the body helper ran and
    wrote what it writes. Neither reaches the database. *)
Theorem handleUpdatePassword_without_session {S} (la : Legacy.api S)
    (lx : LegacyRest.more S) (x : ApiRest.more S)
    {decUpdate : JSONUnmarshal ApiRest.updatePasswordRequestBody}
    (r : Request) (d : S) :
  CtxUserID r = None →
  serveAll (ApiRest.handleUpdatePassword x r) d = (Panicked, (d, []))
  ∧ serveAll (LegacyRest.handleUpdatePassword la lx r) d
    = (Panicked, (d, Base <$> (Legacy.getJSONRequestBody la r).1)).
Proof.
  intros Hid. split.
  - unfold ApiRest.handleUpdatePassword. rewrite Hid. reflexivity.
  - unfold LegacyRest.handleUpdatePassword, Legacy.readJSONRequestBody.
    rewrite Hid. run_actions. by rewrite ?app_nil_r.
Qed.

Lemma handleUpdatePassword_without_session_witness :
  serveAll (ApiRest.handleUpdatePassword FixturesRest.more
              (FixturesRest.withCookie "u1")) Fixtures.users
  = (Panicked, (Fixtures.users, []))
  ∧ serveAll (LegacyRest.handleUpdatePassword FixturesRest.restApi
                FixturesRest.legacyMore (FixturesRest.withCookie "u1")) Fixtures.users
    = (Panicked,
       (Fixtures.users,
        Base <$> (Legacy.getJSONRequestBody FixturesRest.restApi
                    (FixturesRest.withCookie "u1")).1)).
Proof.
  by apply (handleUpdatePassword_without_session FixturesRest.restApi
              FixturesRest.legacyMore FixturesRest.more
              (FixturesRest.withCookie "u1") Fixtures.users).
Defined.

(** ** Missing keys *)

(** X20. Each older handler asserts its keys to be strings without a check: a
    body without the first key, or with another kind of value under it,
    makes the handler panic after what the body helper wrote, with no
    reply of its own, no database call and no mail. *)
Theorem legacy_missing_key_panics {S} (a : Legacy.api S) (x : LegacyRest.more S)
    (r : Request) (d : S) :
  (Legacy.viperGetBool a "config.allow_guests" = true →
   assertString ((Legacy.getJSONRequestBody a r).2 !! "warriorName") = None →
   serve (LegacyRest.handleCreateGuestUser a x r) d
   = (Panicked, {| db := d; trace := (Legacy.getJSONRequestBody a r).1 |}))
  ∧ (assertString ((Legacy.getJSONRequestBody a r).2 !! "resetId") = None →
     serveAll (LegacyRest.handleResetPassword a x r) d
     = (Panicked, (d, Base <$> (Legacy.getJSONRequestBody a r).1)))
  ∧ (∀ id, CtxUserID r = Some id →
       assertString ((Legacy.getJSONRequestBody a r).2 !! "warriorPassword1") = None →
       serveAll (LegacyRest.handleUpdatePassword a x r) d
       = (Panicked, (d, Base <$> (Legacy.getJSONRequestBody a r).1)))
  ∧ (assertString ((Legacy.getJSONRequestBody a r).2 !! "verifyId") = None →
     serveAll (LegacyRest.handleAccountVerification a x r) d
     = (Panicked, (d, Base <$> (Legacy.getJSONRequestBody a r).1)))
  ∧ (assertString ((Legacy.getJSONRequestBody a r).2 !! "warriorEmail") = None →
     serve (Legacy.handleForgotPassword a r) d
     = (Panicked, {| db := d; trace := (Legacy.getJSONRequestBody a r).1 |})).
Proof.
  split; [| split; [| split; [| split]]].
  - intros Hon Hk. unfold LegacyRest.handleCreateGuestUser, Legacy.readJSONRequestBody.
    rewrite Hon. run_handler. rewrite Hk. simpl. by rewrite ?app_nil_r.
  - intros Hk. unfold LegacyRest.handleResetPassword, Legacy.readJSONRequestBody.
    run_actions. rewrite Hk. simpl. by rewrite ?app_nil_r.
  - intros id Hid Hk. unfold LegacyRest.handleUpdatePassword, Legacy.readJSONRequestBody.
    run_actions. rewrite Hid. simpl. rewrite Hk. simpl. by rewrite ?app_nil_r.
  - intros Hk. unfold LegacyRest.handleAccountVerification, Legacy.readJSONRequestBody.
    run_actions. rewrite Hk. simpl. by rewrite ?app_nil_r.
  - intros Hk. unfold Legacy.handleForgotPassword, Legacy.readJSONRequestBody.
    run_handler. rewrite Hk. simpl. by rewrite ?app_nil_r.
Qed.

Lemma legacy_missing_key_panics_witness :
  serveAll (LegacyRest.handleAccountVerification FixturesRest.restApi
              FixturesRest.legacyMore (Fixtures.request Fixtures.truncated "" "" ""))
    Fixtures.users
  = (Panicked, (Fixtures.users, [Base (WriteHeader StatusBadRequest)])).
Proof.
  destruct (legacy_missing_key_panics FixturesRest.restApi FixturesRest.legacyMore
              (Fixtures.request Fixtures.truncated "" "" "") Fixtures.users)
    as (_ & _ & _ & Hverify & _).
  by apply Hverify.
Defined.

(** ** Logging out *)

(** X21. The newer handleLogout, after what validateSessionCookie wrote,
    deletes the session only with a valid session cookie, and clears the
    cookies exactly when the cookie was valid and the session deleted,
    which is exactly when it answers with the success. The database is
    called at most once. *)
Theorem handleLogout_clears_after_session_deleted {S} (x : ApiRest.more S)
    (r : Request) (d : S) :
  ∃ rest : list Action,
    (serveAll (ApiRest.handleLogout x r) d).2.2
    = ((Base <$> (ApiRest.validateSessionCookie x r).1) ++ rest)%list
    ∧ (serveAll (ApiRest.handleLogout x r) d).1 = Returned
    ∧ (DbMore OpDeleteSession ∈ rest ↔ (ApiRest.validateSessionCookie x r).2.2 = None)
    ∧ (Base ClearUserCookies ∈ rest
       ↔ (ApiRest.validateSessionCookie x r).2.2 = None
         ∧ (ApiRest.DeleteSession x (ApiRest.validateSessionCookie x r).2.1 d).1 = None)
    ∧ (Base ClearUserCookies ∈ rest ↔ Base (Success StatusOK DNil) ∈ rest)
    ∧ (length (filter (λ a, isDbAction a = true) rest) ≤ 1)%nat
    ∧ length (replyActions rest) = 1%nat.
Proof.
  unfold ApiRest.handleLogout, Api.clearUserCookies, replyActions. run_actions.
  destruct (ApiRest.validateSessionCookie x r) as [ws [sid [ce|]]]; simpl.
  - exists [Base (Failure StatusUnauthorized (Errorf EINVALID "INVALID_USER"))].
    rewrite ?app_nil_r.
    split; [done |]. split; [done |].
    split; [split; [intros H; no_member H | intros H; discriminate H] |].
    split; [split; [intros H; no_member H | intros [H _]; discriminate H] |].
    split; [split; intros H; no_member H |].
    split; [vm_compute; lia | reflexivity].
  - destruct (ApiRest.DeleteSession x sid d) as [[e|] d']; simpl.
    + exists [DbMore OpDeleteSession; Base (Failure StatusInternalServerError e)].
      rewrite ?app_nil_r, <- ?app_assoc.
      split; [done |]. split; [done |].
      split; [split; [done | intros; by repeat constructor] |].
      split; [split; [intros H; no_member H | intros [_ H]; discriminate H] |].
      split; [split; intros H; no_member H |].
      split; [vm_compute; lia | reflexivity].
    + exists [DbMore OpDeleteSession; Base ClearUserCookies; Base (Success StatusOK DNil)].
      rewrite ?app_nil_r, <- ?app_assoc.
      split; [done |]. split; [done |].
      split; [split; [done | intros; by repeat constructor] |].
      split; [split; [done | intros; by repeat constructor] |].
      split; [split; intros; by repeat constructor |].
      split; [vm_compute; lia | reflexivity].
Qed.

(** X22. The older handleLogout only expires the two cookies: whatever the
    request, it returns having set two cookies with an empty value and a
    negative max age, written no reply, and left the database alone. *)
Theorem legacy_handleLogout_only_expires_cookies {S} (a : Legacy.api S)
    (r : Request) (d : S) :
  ∃ fe be : Cookie,
    serve (LegacyRest.handleLogout a r) d
    = (Returned, {| db := d; trace := [SetCookie fe; SetCookie be] |})
    ∧ CName fe = Legacy.FrontendCookieName (Legacy.config a)
    ∧ CName be = Legacy.SecureCookieName (Legacy.config a)
    ∧ CValue fe = "" ∧ CValue be = ""
    ∧ CMaxAge fe = -1 ∧ CMaxAge be = -1
    ∧ replies (trace (serve (LegacyRest.handleLogout a r) d).2) = [].
Proof.
  unfold LegacyRest.handleLogout, Legacy.clearUserCookies, replies. run_handler.
  eexists _, _. split; [reflexivity |]. by repeat split.
Qed.

(** ** Bodies that do not decode, once more *)

(** X23. Every newer handler that decodes a body answers a body that cannot be
    read or decoded with the one EINVALID bad request that carries the
    reader's or decoder's message, and does nothing else. *)
Theorem more_handlers_reject_undecodable {S} (a : Api.api S) (x : ApiRest.more S)
    {decGuest : JSONUnmarshal ApiRest.guestUserCreateRequestBody}
    {decReset : JSONUnmarshal ApiRest.resetPasswordRequestBody}
    {decUpdate : JSONUnmarshal ApiRest.updatePasswordRequestBody}
    {decVerification : JSONUnmarshal ApiRest.verificationRequestBody}
    (r : Request) (d : S) (msg : string) :
  undecodable ApiRest.guestUserCreateRequestBody r msg →
  undecodable ApiRest.resetPasswordRequestBody r msg →
  undecodable ApiRest.updatePasswordRequestBody r msg →
  undecodable ApiRest.verificationRequestBody r msg →
  (Api.viperGetBool a "config.allow_guests" = true →
   serveAll (ApiRest.handleCreateGuestUser a x r) d
   = (Returned, (d, [Base (Failure StatusBadRequest (Errorf EINVALID msg))])))
  ∧ serveAll (ApiRest.handleResetPassword x r) d
    = (Returned, (d, [Base (Failure StatusBadRequest (Errorf EINVALID msg))]))
  ∧ (CtxUserID r ≠ None →
     serveAll (ApiRest.handleUpdatePassword x r) d
     = (Returned, (d, [Base (Failure StatusBadRequest (Errorf EINVALID msg))])))
  ∧ serveAll (ApiRest.handleAccountVerification x r) d
    = (Returned, (d, [Base (Failure StatusBadRequest (Errorf EINVALID msg))])).
Proof.
  unfold undecodable. intros Hg Hr Hu Hv.
  split; [| split; [| split]].
  - intros Hon. unfold ApiRest.handleCreateGuestUser. rewrite Hon. run_actions.
    destruct Hg as [Hb | (body & Hb & Hd)]; rewrite Hb; simpl;
      [reflexivity | by rewrite Hd].
  - unfold ApiRest.handleResetPassword. run_actions.
    destruct Hr as [Hb | (body & Hb & Hd)]; rewrite Hb; simpl;
      [reflexivity | by rewrite Hd].
  - intros Hid. unfold ApiRest.handleUpdatePassword. run_actions.
    destruct (CtxUserID r) as [id|]; [| done]. simpl.
    destruct Hu as [Hb | (body & Hb & Hd)]; rewrite Hb; simpl;
      [reflexivity | by rewrite Hd].
  - unfold ApiRest.handleAccountVerification. run_actions.
    destruct Hv as [Hb | (body & Hb & Hd)]; rewrite Hb; simpl;
      [reflexivity | by rewrite Hd].
Qed.

Lemma more_handlers_reject_undecodable_witness :
  serveAll (ApiRest.handleAccountVerification FixturesRest.more
              (Fixtures.request Fixtures.truncated "" "" "")) Fixtures.users
  = (Returned,
     (Fixtures.users,
      [Base (Failure StatusBadRequest (Errorf EINVALID "unexpected end of JSON input"))])).
Proof.
  apply (more_handlers_reject_undecodable (Fixtures.api true) FixturesRest.more
           (Fixtures.request Fixtures.truncated "" "" "") Fixtures.users
           "unexpected end of JSON input");
    right; exists Fixtures.truncated; split; reflexivity.
Defined.

(** ** Verification requests and active countries *)

(** X24. handleVerifyRequest mails the verification only for the user and the
    verify id that [UserVerifyRequest] returned without error for the path
    variable; when the database reports an error the 500 failure is the
    only reply and nothing is mailed. *)
Theorem handleVerifyRequest_mails_what_database_returned {S} (x : ApiRest.more S)
    (r : Request) (d : S) :
  (∀ name email vid,
     SendEmailVerification name email vid
     ∈ (serveAll (ApiRest.handleVerifyRequest x r) d).2.2 →
     ∃ (u : User) (d' : S),
       ApiRest.UserVerifyRequest x (Api.pathVar r "userId") d = ((Some u, vid, None), d')
       ∧ name = Name u ∧ email = Email u
       ∧ serveAll (ApiRest.handleVerifyRequest x r) d
         = (Returned, (d', [DbMore OpUserVerifyRequest;
                            SendEmailVerification (Name u) (Email u) vid;
                            Base (Success StatusOK DNil)])))
  ∧ (∀ e, (ApiRest.UserVerifyRequest x (Api.pathVar r "userId") d).1.2 = Some e →
       serveAll (ApiRest.handleVerifyRequest x r) d
       = (Returned,
          ((ApiRest.UserVerifyRequest x (Api.pathVar r "userId") d).2,
           [DbMore OpUserVerifyRequest; Base (Failure StatusInternalServerError e)]))).
Proof.
  unfold ApiRest.handleVerifyRequest. run_actions. split.
  - intros name email vid.
    destruct (ApiRest.UserVerifyRequest x _ d) as [[[user v] [e|]] d'] eqn:Hq; simpl;
      [intros H; no_member H |].
    destruct user as [u|]; simpl; [| intros H; no_member H].
    intros H. apply elem_of_cons in H as [H | H]; [discriminate H |].
    apply elem_of_cons in H as [H | H]; [| no_member H].
    simplify_eq. by exists u, d'.
  - intros e.
    destruct (ApiRest.UserVerifyRequest x _ d) as [[[user v] err] d']; simpl.
    by intros ->.
Qed.

Lemma handleVerifyRequest_mails_what_database_returned_witness :
  serveAll (ApiRest.handleVerifyRequest FixturesRest.more
              (Fixtures.request "" "nobody" "" "")) Fixtures.users
  = (Returned,
     (Fixtures.users,
      [DbMore OpUserVerifyRequest;
       Base (Failure StatusInternalServerError Fixtures.notFound)])).
Proof.
  destruct (handleVerifyRequest_mails_what_database_returned FixturesRest.more
              (Fixtures.request "" "nobody" "" "") Fixtures.users) as [_ Herr].
  by apply Herr.
Defined.

(** X25. handleGetActiveCountries reads the request not at all and sets the
    Cache-Control header exactly when the database returned the countries
    without error: it then answers with those countries, and otherwise
    with the 500 failure and no header. *)
Theorem handleGetActiveCountries_caches_successes {S} (x : ApiRest.more S)
    (r : Request) (d : S) :
  (serveAll (ApiRest.handleGetActiveCountries x r) d).1 = Returned
  ∧ (serveAll (ApiRest.handleGetActiveCountries x r) d).2.1
    = (ApiRest.GetActiveCountries x d).2
  ∧ (SetHeader "Cache-Control" "max-age=3600"
     ∈ (serveAll (ApiRest.handleGetActiveCountries x r) d).2.2
     ↔ (ApiRest.GetActiveCountries x d).1.2 = None)
  ∧ (∀ key value,
       SetHeader key value ∈ (serveAll (ApiRest.handleGetActiveCountries x r) d).2.2 →
       SuccessStrings StatusOK (ApiRest.GetActiveCountries x d).1.1
       ∈ (serveAll (ApiRest.handleGetActiveCountries x r) d).2.2)
  ∧ (∀ e, (ApiRest.GetActiveCountries x d).1.2 = Some e →
       (serveAll (ApiRest.handleGetActiveCountries x r) d).2.2
       = [DbMore OpGetActiveCountries; Base (Failure StatusInternalServerError e)])
  ∧ (∀ r', serveAll (ApiRest.handleGetActiveCountries x r') d
           = serveAll (ApiRest.handleGetActiveCountries x r) d).
Proof.
  unfold ApiRest.handleGetActiveCountries. run_actions.
  destruct (ApiRest.GetActiveCountries x d) as [[countries [e|]] d']; simpl.
  - split; [done |]. split; [done |].
    split; [split; [intros H; no_member H | intros H; discriminate H] |].
    split; [intros ? ? H; no_member H |].
    split; [intros e' He; by simplify_eq | done].
  - split; [done |]. split; [done |].
    split; [split; [done | intros; by repeat constructor] |].
    split; [intros; by repeat constructor |].
    split; [intros e' He; discriminate He | done].
Qed.

Lemma handleGetActiveCountries_caches_successes_witness :
  SetHeader "Cache-Control" "max-age=3600"
  ∈ (serveAll (ApiRest.handleGetActiveCountries FixturesRest.more
                 (Fixtures.request "" "" "" "")) Fixtures.users).2.2
  ∧ SuccessStrings StatusOK ["PL"; "US"]
    ∈ (serveAll (ApiRest.handleGetActiveCountries FixturesRest.more
                   (Fixtures.request "" "" "" "")) Fixtures.users).2.2.
Proof.
  destruct (handleGetActiveCountries_caches_successes FixturesRest.more
              (Fixtures.request "" "" "" "") Fixtures.users)
    as (_ & _ & Hhead & Hok & _).
  split.
  - by apply Hhead.
  - apply (Hok "Cache-Control" "max-age=3600"). by apply Hhead.
Defined.

(** ** One reply *)

(** X26. Unlike registration, the remaining newer handlers answer a request
    once: a run that returns has made exactly one reply, provided
    validateSessionCookie itself replies nothing; the handlers that assert
    nothing and dereference no user always return. *)
Theorem more_handlers_reply_once {S} (a : Api.api S) (x : ApiRest.more S)
    {decGuest : JSONUnmarshal ApiRest.guestUserCreateRequestBody}
    {decReset : JSONUnmarshal ApiRest.resetPasswordRequestBody}
    {decUpdate : JSONUnmarshal ApiRest.updatePasswordRequestBody}
    {decVerification : JSONUnmarshal ApiRest.verificationRequestBody}
    (r : Request) (d : S) :
  ((serveAll (ApiRest.handleResetPassword x r) d).1 = Returned
   ∧ length (replyActions (serveAll (ApiRest.handleResetPassword x r) d).2.2) = 1%nat)
  ∧ ((serveAll (ApiRest.handleAccountVerification x r) d).1 = Returned
     ∧ length (replyActions (serveAll (ApiRest.handleAccountVerification x r) d).2.2)
       = 1%nat)
  ∧ ((serveAll (ApiRest.handleGetActiveCountries x r) d).1 = Returned
     ∧ length (replyActions (serveAll (ApiRest.handleGetActiveCountries x r) d).2.2)
       = 1%nat)
  ∧ ((serveAll (ApiRest.handleCreateGuestUser a x r) d).1 = Returned →
     length (replyActions (serveAll (ApiRest.handleCreateGuestUser a x r) d).2.2) = 1%nat)
  ∧ ((serveAll (ApiRest.handleUpdatePassword x r) d).1 = Returned →
     length (replyActions (serveAll (ApiRest.handleUpdatePassword x r) d).2.2) = 1%nat)
  ∧ ((serveAll (ApiRest.handleVerifyRequest x r) d).1 = Returned →
     length (replyActions (serveAll (ApiRest.handleVerifyRequest x r) d).2.2) = 1%nat)
  ∧ (replies (ApiRest.validateSessionCookie x r).1 = [] →
     (serveAll (ApiRest.handleLogout x r) d).1 = Returned
     ∧ length (replyActions (serveAll (ApiRest.handleLogout x r) d).2.2) = 1%nat).
Proof.
  unfold replyActions.
  split; [| split; [| split; [| split; [| split; [| split]]]]].
  - unfold ApiRest.handleResetPassword. run_actions.
    destruct (Body r) as [body|bodyErr]; simpl; [| done].
    destruct (Unmarshal body) as [u|jsonErr]; simpl; [| done].
    destruct (ApiRest.validateUserPassword x _ _) as [pwd [e|]]; simpl; [done |].
    by destruct (ApiRest.UserResetPassword x _ _ d) as [[[n m] [e|]] d'].
  - unfold ApiRest.handleAccountVerification. run_actions.
    destruct (Body r) as [body|bodyErr]; simpl; [| done].
    destruct (Unmarshal body) as [u|jsonErr]; simpl; [| done].
    by destruct (ApiRest.VerifyUserAccount x _ d) as [[e|] d'].
  - unfold ApiRest.handleGetActiveCountries. run_actions.
    by destruct (ApiRest.GetActiveCountries x d) as [[countries [e|]] d'].
  - unfold ApiRest.handleCreateGuestUser. run_actions.
    destruct (Api.viperGetBool a _); simpl; [| done].
    destruct (Body r) as [body|bodyErr]; simpl; [| done].
    destruct (Unmarshal body) as [u|jsonErr]; simpl; [| done].
    destruct (ApiRest.CreateUserGuest x _ d) as [[newUser [e|]] d']; simpl; [done |].
    destruct newUser as [nu|]; simpl; [| done].
    by destruct (ApiRest.userCookieErr x (Id nu)).
  - unfold ApiRest.handleUpdatePassword. run_actions.
    destruct (CtxUserID r) as [id|]; simpl; [| done].
    destruct (Body r) as [body|bodyErr]; simpl; [| done].
    destruct (Unmarshal body) as [u|jsonErr]; simpl; [| done].
    destruct (ApiRest.validateUserPassword x _ _) as [pwd [e|]]; simpl; [done |].
    by destruct (ApiRest.UserUpdatePassword x _ _ d) as [[[n m] [e|]] d'].
  - unfold ApiRest.handleVerifyRequest. run_actions.
    destruct (ApiRest.UserVerifyRequest x _ d) as [[[user v] [e|]] d']; simpl; [done |].
    by destruct user.
  - unfold ApiRest.handleLogout, Api.clearUserCookies, replies. run_actions.
    intros Hquiet.
    assert (filter (λ a0 : Action, isReplyAction a0 = true)
              (Base <$> (ApiRest.validateSessionCookie x r).1) = []) as Hnone.
    { revert Hquiet. generalize (ApiRest.validateSessionCookie x r).1.
      induction l as [|c l IH]; [done |]. rewrite fmap_cons, !filter_cons. simpl.
      destruct (decide (isReply c = true)); [done | apply IH]. }
    destruct (ApiRest.validateSessionCookie x r) as [ws [sid [ce|]]]; simpl in *.
    + rewrite ?app_nil_r, filter_app, Hnone. done.
    + destruct (ApiRest.DeleteSession x sid d) as [[e|] d']; simpl;
        rewrite ?app_nil_r, <- ?app_assoc, filter_app, Hnone; done.
Qed.

Lemma more_handlers_reply_once_witness :
  (serveAll (ApiRest.handleLogout FixturesRest.more (FixturesRest.withCookie "session-1"))
     Fixtures.users).1 = Returned
  ∧ length (replyActions
              (serveAll (ApiRest.handleLogout FixturesRest.more
                           (FixturesRest.withCookie "session-1")) Fixtures.users).2.2)
    = 1%nat.
Proof.
  destruct (more_handlers_reply_once (Fixtures.api true) FixturesRest.more
              (FixturesRest.withCookie "session-1") Fixtures.users)
    as (_ & _ & _ & _ & _ & _ & Hlogout).
  by apply Hlogout.
Defined.
